(** * MONAI Cloud API notebooks: the client-side control flow

    The notebooks of this repository talk to a remote service through
    [requests] and contain one helper with real control flow, [wait_for_job].
    This development embeds the cells that decide something: the login cell,
    [wait_for_job], the download cell, the two clean-up cells (all from
    "Training a MONAI Segmentation Bundle") and the selection of the
    Auto3DSeg base experiment (from "Working with MONAI Auto3DSeg").  For
    the run of the whole segmentation notebook it also embeds the cells
    between the login and the monitoring, which create the datasets, the
    experiment and the train job; and it embeds the download and clean-up
    cells and the login cells of the other notebooks.

    Conventions of the embedding.
    - The service and the wall clock are a script held in the [world]: the
      responses the coming requests will get and the values the coming calls
      of [time.time()] will return.  What the client does (requests with
      their answers, sleeps, printed text, files written) is appended to the
      [trace] of the world.
    - A cell is a computation in a state and exception monad over the world.
      Cells are run in notebook order and a raised exception ends the run, as
      "Run All" does.
    - A response body is a JSON object whose fields read by the cells are
      strings; the experiments listing is a list of records.  Strings are
      ASCII.  Clock readings and timeouts are exact integers in one common
      unit (Python has floats); the code only subtracts and compares them.
    - The text of a failed [assert] is kept as a constructor carrying the
      values its f-string interpolates.
    - What Python prints for a dict, and the bodies that are not objects
      of strings (the listing, the job id, the lists and numbers of a
      request body), are parameters of the whole notebook. *)

From Stdlib Require Import ZArith String Ascii List Lia Bool.
From stdpp Require Import base gmap strings list pretty.

Open Scope Z_scope.
Open Scope string_scope.
Open Scope list_scope.

(** ** Strings *)

Definition nl : string := String "010"%char EmptyString.

Definition is_lower (c : ascii) : bool :=
  ((97 <=? N_of_ascii c) && (N_of_ascii c <=? 122))%N.

Definition is_upper (c : ascii) : bool :=
  ((65 <=? N_of_ascii c) && (N_of_ascii c <=? 90))%N.

Definition to_upper (c : ascii) : ascii :=
  if is_lower c then ascii_of_N (N_of_ascii c - 32) else c.

Definition to_lower (c : ascii) : ascii :=
  if is_upper c then ascii_of_N (N_of_ascii c + 32) else c.

(** [str.title()]: the first cased character of every run of cased
    characters is made upper case, the others lower case. *)
Fixpoint title_from (previous_is_cased : bool) (s : string) : string :=
  match s with
  | EmptyString => EmptyString
  | String c s' =>
      if is_lower c then
        String (if previous_is_cased then c else to_upper c) (title_from true s')
      else if is_upper c then
        String (if previous_is_cased then to_lower c else c) (title_from true s')
      else String c (title_from false s')
  end.

Definition title (s : string) : string := title_from false s.

(** [str.lower()], used to say that two strings differ only in case. *)
Fixpoint lower (s : string) : string :=
  match s with
  | EmptyString => EmptyString
  | String c s' => String (to_lower c) (lower s')
  end.

(** ** Requests, responses and the world *)

Inductive method := GET | POST | DELETE.

Record request := {
  rq_method : method;
  rq_url : string;
  rq_headers : gmap string string;        (* [headers=], empty when not given *)
  rq_data : option (gmap string string);  (* [data=json.dumps({...})] *)
}.

Record response := {
  status_code : Z;
  json : gmap string string;             (* [response.json()] *)
  content : string;                      (* [response.content] *)
}.

Inductive event :=
| Call (rq : request) (answer : option response)
    (* a request and its response; [None] when the script has no answer *)
| Sleep (secs : Z)
| Print (text : string)
| Save (path : string) (bytes : string).

Record world := {
  replies : list response;   (* responses to the coming requests, in order *)
  clock : list Z;            (* values of the coming calls of time.time() *)
  trace : list event;        (* what the client did, oldest first *)
}.

(** The message of a failed assert, with the interpolated values. *)
Inductive assertion :=
| Login_failed (code : Z)
    (* "Login failed, got status code: {response.status_code}." *)
| user_id_not_in_response      (* "user_id is not in response." *)
| token_not_in_response        (* "token is not in response." *)
| Failed_to_get_job_status (got : gmap string string)
    (* "Failed to get job status, got {response.json()}." *)
| Job_failed (status : string) (* "Job failed with status: {status}" *)
| Failed_to_download_bundle (got : gmap string string)
| Cancel_job_failed (got : gmap string string)
| Delete_experiment_failed (got : gmap string string)
| Delete_train_dataset_failed (got : gmap string string)
| Delete_val_dataset_failed (got : gmap string string)
| No_base_experiment_found
    (* "No base experiment found for Auto3DSeg Experiment" *)
| Create_train_dataset_failed (got : gmap string string)
    (* "Create train dataset failed, got {response.json()}." *)
| Create_val_dataset_failed (got : gmap string string)
| List_Base_Experiments_failed (got : gmap string string)
| Create_experiment_failed (got : gmap string string)
| Run_dgx_train_job_failed (got : gmap string string).

Inductive exn :=
| AssertionError (msg : assertion)
| KeyError (key : string)
| IndexError.

(** Python values a helper can hand back to its caller. *)
Inductive pyvalue :=
| PyNone
| PyStr (s : string).

(** ** The monad of a running notebook *)

Inductive result (A : Type) :=
| Ok (a : A) (w : world)
| Raise (e : exn) (w : world)
| Stuck (w : world).
    (* the script ended: the client waits for an answer or a clock value *)

Arguments Ok {A} a w.
Arguments Raise {A} e w.
Arguments Stuck {A} w.

Definition M (A : Type) : Type := world -> result A.

Definition ret {A} (a : A) : M A := fun w => Ok a w.

Definition bind {A B} (m : M A) (k : A -> M B) : M B :=
  fun w =>
    match m w with
    | Ok a w' => k a w'
    | Raise e w' => Raise e w'
    | Stuck w' => Stuck w'
    end.

Notation "'let*' x ':=' m 'in' k" := (bind m (fun x => k))
  (at level 10, x name, m at level 100, k at level 200).
Notation "m '>>' k" := (bind m (fun _ => k))
  (at level 100, k at level 200, right associativity).

Definition raise {A} (e : exn) : M A := fun w => Raise e w.

Definition log (e : event) (w : world) : world :=
  {| replies := replies w; clock := clock w; trace := trace w ++ [e] |}.

(** [assert cond, msg] *)
Definition assert (cond : bool) (msg : assertion) : M unit :=
  if cond then ret tt else raise (AssertionError msg).

(** [d[key]] on a JSON object *)
Definition getitem (d : gmap string string) (key : string) : M string :=
  match d !! key with
  | Some v => ret v
  | None => raise (KeyError key)
  end.

(** [print(text, end=end)] *)
Definition print (text : string) (end_ : string) : M unit :=
  fun w => Ok tt (log (Print (text +:+ end_)) w).

(** [time.time()] *)
Definition time_time : M Z :=
  fun w =>
    match clock w with
    | t :: ts => Ok t {| replies := replies w; clock := ts; trace := trace w |}
    | [] => Stuck w
    end.

(** [time.sleep(secs)] *)
Definition time_sleep (secs : Z) : M unit :=
  fun w => Ok tt (log (Sleep secs) w).

(** [requests.request]: the request goes out and the next scripted
    response comes back. *)
Definition send (rq : request) : M response :=
  fun w =>
    match replies w with
    | r :: rs =>
        Ok r {| replies := rs; clock := clock w;
                trace := trace w ++ [Call rq (Some r)] |}
    | [] => Stuck (log (Call rq None) w)
    end.

(** The requests the cells make: [requests.get(endpoint, headers=hd)],
    [requests.post(endpoint, headers=hd)], [requests.delete(endpoint,
    headers=hd)], and the two calls that pass [data=json.dumps(d)]. *)
Definition get_request (endpoint : string) (hd : gmap string string) : request :=
  {| rq_method := GET; rq_url := endpoint; rq_headers := hd; rq_data := None |}.

Definition post_request (endpoint : string) (hd : gmap string string) : request :=
  {| rq_method := POST; rq_url := endpoint; rq_headers := hd; rq_data := None |}.

Definition delete_request (endpoint : string) (hd : gmap string string) : request :=
  {| rq_method := DELETE; rq_url := endpoint; rq_headers := hd; rq_data := None |}.

Definition requests_get (endpoint : string) (hd : gmap string string) : M response :=
  send (get_request endpoint hd).

Definition requests_get_data (endpoint : string) (d : gmap string string)
    (hd : gmap string string) : M response :=
  send {| rq_method := GET; rq_url := endpoint; rq_headers := hd;
          rq_data := Some d |}.

Definition requests_post (endpoint : string) (hd : gmap string string) : M response :=
  send (post_request endpoint hd).

Definition requests_post_data (endpoint : string) (d : gmap string string) : M response :=
  send {| rq_method := POST; rq_url := endpoint; rq_headers := ∅;
          rq_data := Some d |}.

Definition requests_delete (endpoint : string) (hd : gmap string string) : M response :=
  send (delete_request endpoint hd).

(** [open(path, "wb").write(bytes)] *)
Definition write_file (path : string) (bytes : string) : M unit :=
  fun w => Ok tt (log (Save path bytes) w).

(** ** The job poller *)

(** [status not in ["Pending", "Running"]] *)
Definition not_in_pending_running (status : string) : bool :=
  negb (String.eqb status "Pending" || String.eqb status "Running").

(** The [while True] loop of [wait_for_job]; its value is [status] when the
    loop is left.  Every turn that does not leave the loop consumes one
    response, so [fuel] above the number of scripted responses is never
    used up. *)
Fixpoint wait_loop (fuel : nat) (endpoint : string) (hd : gmap string string)
    (timeout start_time : Z) (status : string) : M string :=
  match fuel with
  | O => fun w => Stuck w
  | S fuel' =>
      if not_in_pending_running status then
        assert (String.eqb status "Done") (Job_failed status) >>
        ret status
      else
        time_sleep 5 >>
        let* response := requests_get endpoint hd in
        assert (status_code response =? 200)%Z
               (Failed_to_get_job_status (json response)) >>
        let* raw := getitem (json response) "status" in
        let status_new := title raw in
        let* status :=
          (if negb (String.eqb status_new status)
           then print (nl +:+ status_new) "" >> ret status_new
           else print "." "" >> ret status) in
        let* now := time_time in
        if (now - start_time >? timeout)%Z then
          print ("Job timeout after " +:+ pretty timeout +:+ " seconds.") nl >>
          ret status
        else wait_loop fuel' endpoint hd timeout start_time status
  end.

Definition wait_for_job (endpoint : string) (hd : gmap string string)
    (timeout : Z) : M pyvalue :=
  let* start_time := time_time in
  let* response := requests_get endpoint hd in
  assert (status_code response =? 200)%Z
         (Failed_to_get_job_status (json response)) >>
  let* raw := getitem (json response) "status" in
  let status := title raw in
  print "Waiting for job to complete..." nl >>
  print status "" >>
  let* status :=
    (fun w => wait_loop (S (length (replies w))) endpoint hd timeout
                        start_time status w) in
  print (nl +:+ "Job status: " +:+ status) nl >>
  ret PyNone.

(** ** The cells of "Training a MONAI Segmentation Bundle" *)

(** What the login cell binds for the cells after it. *)
Record session := {
  user_id : string;
  token : string;
  base_url : string;
  headers : gmap string string;
}.

(** ["key" in d.keys()] *)
Definition has_key (d : gmap string string) (key : string) : bool :=
  match d !! key with
  | Some _ => true
  | None => false
  end.

(** [print(response)] writes [<Response [code]>]. *)
Definition repr_response (r : response) : string :=
  "<Response [" +:+ pretty (status_code r) +:+ "]>".

(** The cell "Login with NGC Key". *)
Definition login (host_url ngc_api_key : string) : M session :=
  let data := {[ "ngc_api_key" := ngc_api_key ]} in
  let* response := requests_post_data (host_url +:+ "/api/v1/login") data in
  print (pretty (status_code response)) nl >>
  assert (status_code response =? 201)%Z (Login_failed (status_code response)) >>
  assert (has_key (json response) "user_id") user_id_not_in_response >>
  let* user_id := getitem (json response) "user_id" in
  print ("User ID" +:+ " " +:+ user_id) nl >>
  assert (has_key (json response) "token") token_not_in_response >>
  let* token := getitem (json response) "token" in
  print ("JWT" +:+ " " +:+ token) nl >>
  let base_url := host_url +:+ "/api/v1/users/" +:+ user_id in
  print ("API Calls will be forwarded to" +:+ " " +:+ base_url) nl >>
  let headers := {[ "Authorization" := "Bearer " +:+ token ]} in
  ret {| user_id := user_id; token := token; base_url := base_url;
         headers := headers |}.

Definition job_endpoint (base_url experiment_id job_id : string) : string :=
  base_url +:+ "/experiments/" +:+ experiment_id +:+ "/jobs/" +:+ job_id.

(** The cell that defines [wait_for_job] and calls it with
    [timeout=1800].  The loop that displays the fields of the first
    response is left out: it sends nothing. *)
Definition monitor (base_url : string) (headers : gmap string string)
    (experiment_id job_id : string) : M unit :=
  let endpoint := job_endpoint base_url experiment_id job_id in
  let* response := requests_get endpoint headers in
  assert (status_code response =? 200)%Z
         (Failed_to_get_job_status (json response)) >>
  print "------------------------------------------------------------------------" nl >>
  let* _ := wait_for_job endpoint headers 1800 in
  ret tt.

(** The cell "Job Download". *)
Definition download (base_url : string) (headers : gmap string string)
    (experiment_id job_id : string) : M unit :=
  let endpoint := job_endpoint base_url experiment_id job_id in
  let* response := requests_get endpoint headers in
  let* status := getitem (json response) "status" in
  if String.eqb status "Done" then
    let endpoint := job_endpoint base_url experiment_id job_id +:+ ":download" in
    let* response := requests_get endpoint headers in
    assert (status_code response =? 200)%Z
           (Failed_to_download_bundle (json response)) >>
    let attachment_data := content response in
    write_file (job_id +:+ ".tar.gz") attachment_data >>
    print ("Bundle training results are downloaded as " +:+ job_id +:+ ".tar.gz") nl >>
    let endpoint := job_endpoint base_url experiment_id job_id +:+ ":download" in
    let* response :=
      requests_get_data endpoint {[ "export_type" := "monai_bundle" ]} headers in
    assert (status_code response =? 200)%Z
           (Failed_to_download_bundle (json response)) >>
    write_file (job_id +:+ ".tar.gz") (content response) >>
    print "Downloaded!" nl
  else ret tt.

(** The first clean-up cell: cancel the job unless it is done, then delete
    the experiment. *)
Definition delete_experiment (base_url : string) (headers : gmap string string)
    (experiment_id job_id : string) : M unit :=
  let endpoint := job_endpoint base_url experiment_id job_id in
  let* response := requests_get endpoint headers in
  let* status := getitem (json response) "status" in
  (if negb (String.eqb status "Done") then
     let endpoint := job_endpoint base_url experiment_id job_id +:+ ":cancel" in
     let* response := requests_post endpoint headers in
     assert (status_code response =? 200)%Z (Cancel_job_failed (json response)) >>
     print (repr_response response) nl
   else ret tt) >>
  let endpoint := base_url +:+ "/experiments/" +:+ experiment_id in
  let* response := requests_delete endpoint headers in
  assert (status_code response =? 200)%Z
         (Delete_experiment_failed (json response)) >>
  print (repr_response response) nl.

(** The second clean-up cell: delete the two datasets. *)
Definition delete_datasets (base_url : string) (headers : gmap string string)
    (train_dataset_id val_dataset_id : string) : M unit :=
  let endpoint := base_url +:+ "/datasets/" +:+ train_dataset_id in
  let* response := requests_delete endpoint headers in
  assert (status_code response =? 200)%Z
         (Delete_train_dataset_failed (json response)) >>
  print (repr_response response) nl >>
  let endpoint := base_url +:+ "/datasets/" +:+ val_dataset_id in
  let* response := requests_delete endpoint headers in
  assert (status_code response =? 200)%Z
         (Delete_val_dataset_failed (json response)) >>
  print (repr_response response) nl.

(** "Cleaning Up": the two cells in notebook order. *)
Definition cleanup (base_url : string) (headers : gmap string string)
    (experiment_id job_id train_dataset_id val_dataset_id : string) : M unit :=
  delete_experiment base_url headers experiment_id job_id >>
  delete_datasets base_url headers train_dataset_id val_dataset_id.

(** The notebook from the login on.  The cells that create the datasets,
    the experiment and the job are not embedded; the ids they bind are
    parameters. *)
Definition notebook (host_url ngc_api_key : string)
    (train_dataset_id val_dataset_id experiment_id job_id : string) : M unit :=
  let* s := login host_url ngc_api_key in
  monitor (base_url s) (headers s) experiment_id job_id >>
  download (base_url s) (headers s) experiment_id job_id >>
  cleanup (base_url s) (headers s) experiment_id job_id
          train_dataset_id val_dataset_id.

(** ** The cell "Find the base experiment for Auto3DSeg" *)

Module Auto3DSeg.
Section Selection.

(** The type of the ["version"] values and Python's [<] on it. *)
Context {V : Type} (lt : V -> V -> bool).

(** An element of the experiments listing, with the keys the cell reads. *)
Record experiment := {
  id : string;
  name : string;
  network_arch : string;
  version : V;
}.

(** [p["network_arch"] == "monai_automl" and p["name"] == "MONAI Auto3dSeg"] *)
Definition is_automl_base (p : experiment) : bool :=
  String.eqb (network_arch p) "monai_automl" &&
  String.eqb (name p) "MONAI Auto3dSeg".

Definition automl_base_exps (res : list experiment) : list experiment :=
  List.filter is_automl_base res.

(** [sorted(l, key=key)] is stable: an element goes behind the elements
    that are not greater. *)
Fixpoint insert_sorted (key : experiment -> V) (x : experiment)
    (l : list experiment) : list experiment :=
  match l with
  | [] => [x]
  | y :: l' =>
      if lt (key x) (key y) then x :: y :: l'
      else y :: insert_sorted key x l'
  end.

Definition sorted (l : list experiment) (key : experiment -> V)
    : list experiment :=
  fold_left (fun acc x => insert_sorted key x acc) l [].

(** The cell from [res = response.json()] on; the prints are left out. *)
Definition base_experiment (res : list experiment) : exn + experiment :=
  let automl_base_exps := automl_base_exps res in
  if negb (0 <? length automl_base_exps)%nat
  then inl (AssertionError No_base_experiment_found)
  else
    match last (sorted automl_base_exps version) with
    | Some p => inr p
    | None => inl IndexError
    end.

Definition base_experiment_id (res : list experiment) : exn + string :=
  match base_experiment res with
  | inr p => inr (id p)
  | inl e => inl e
  end.

(** Every element is not above the elements behind it. *)
Fixpoint ascending (key : experiment -> V) (l : list experiment) : Prop :=
  match l with
  | [] => True
  | x :: l' =>
      (forall y, In y l' -> lt (key y) (key x) = false) /\ ascending key l'
  end.

End Selection.

(** A listing to try the cell on. *)
Definition entry (i a n : string) (ver : Z) : @experiment Z :=
  {| id := i; name := n; network_arch := a; version := ver |}.

Definition listing : list (@experiment Z) :=
  [entry "b1" "monai_automl" "MONAI Auto3dSeg" 2;
   entry "b2" "monai_vista3d" "MONAI VISTA" 9;
   entry "b3" "monai_automl" "MONAI Auto3dSeg" 5;
   entry "b4" "monai_automl" "MONAI Auto3dSeg" 3].

End Auto3DSeg.

(** ** Vocabulary of the statements *)

(** The world a run ends in, whatever the outcome. *)
Definition final {A} (r : result A) : world :=
  match r with
  | Ok _ w => w
  | Raise _ w => w
  | Stuck w => w
  end.

(** The status the poller reads off a response. *)
Definition observed (r : response) : option string :=
  title <$> (json r !! "status").

(** A successful status response showing [status] after title-casing. *)
Definition answers (r : response) (status : string) : Prop :=
  status_code r = 200 /\ observed r = Some status.

Definition still_running (r : response) : Prop :=
  answers r "Pending" \/ answers r "Running".

(** The response of the last answered request of a trace. *)
Fixpoint last_answer (evs : list event) : option response :=
  match evs with
  | [] => None
  | ev :: evs' =>
      match last_answer evs' with
      | Some r => Some r
      | None =>
          match ev with
          | Call _ (Some r) => Some r
          | _ => None
          end
      end
  end.

(** Every request among the events carries the headers [hd]. *)
Definition carries (hd : gmap string string) (ev : event) : Prop :=
  match ev with
  | Call rq _ => rq_headers rq = hd
  | _ => True
  end.

(** A computation only appends events, all of them satisfying [P]. *)
Definition emits {A} (P : event -> Prop) (m : M A) : Prop :=
  forall w, exists evs, trace (final (m w)) = trace w ++ evs /\ Forall P evs.

(** The text of the three reports of [wait_for_job]. *)
Definition job_status_line (status : string) : string :=
  (nl +:+ "Job status: " +:+ status) +:+ nl.

Definition timeout_line (timeout : Z) : string :=
  ("Job timeout after " +:+ pretty timeout +:+ " seconds.") +:+ nl.

(** What one turn of the loop appends when it polls. *)
Definition poll_events (endpoint : string) (hd : gmap string string)
    (status : string) (r : response) (status_new : string) : list event :=
  [Sleep 5; Call (get_request endpoint hd) (Some r);
   Print ((if negb (String.eqb status_new status)
           then nl +:+ status_new else ".") +:+ "")].

(** What [wait_for_job] does with the outcome of its loop. *)
Definition wait_finish (r : result string) : result pyvalue :=
  match r with
  | Ok status w => Ok PyNone (log (Print (job_status_line status)) w)
  | Raise e w => Raise e w
  | Stuck w => Stuck w
  end.

(** The events of [wait_for_job] up to its loop. *)
Definition first_events (endpoint : string) (hd : gmap string string)
    (r : response) (status : string) : list event :=
  [Call (get_request endpoint hd) (Some r);
   Print ("Waiting for job to complete..." +:+ nl);
   Print (status +:+ "")].

(** A successful status response with the wire status [status]. *)
Definition status_response (status : string) : response :=
  {| status_code := 200; json := {[ "status" := status ]}; content := "" |}.

(** A bare 200 response. *)
Definition ok_response : response :=
  {| status_code := 200; json := ∅; content := "" |}.

(** The request of the login cell. *)
Definition login_request (host_url ngc_api_key : string) : request :=
  {| rq_method := POST; rq_url := host_url +:+ "/api/v1/login";
     rq_headers := ∅; rq_data := Some {[ "ngc_api_key" := ngc_api_key ]} |}.

(** The headers the login cell builds. *)
Definition bearer (token : string) : gmap string string :=
  {[ "Authorization" := "Bearer " +:+ token ]}.

Definition printed (ev : event) : Prop := exists text, ev = Print text.

(** The login succeeds exactly on 201 with both keys in the body. *)
Definition login_accepts (r : response) : Prop :=
  status_code r = 201 /\
  is_Some (json r !! "user_id") /\ is_Some (json r !! "token").

(** ** Further vocabulary *)

(** Ignoring what is printed, the events are rounds of a sleep of 5
    seconds followed by the request [rq]. *)
Fixpoint paced (rq : request) (evs : list event) : Prop :=
  match evs with
  | [] => True
  | Print _ :: evs' => paced rq evs'
  | Sleep secs :: Call rq' _ :: evs' => secs = 5 /\ rq' = rq /\ paced rq evs'
  | _ => False
  end.

(** How a raised exception relates to the response [r] it follows. *)
Definition raised_by (e : exn) (r : response) : Prop :=
  (status_code r <> 200 /\
   e = AssertionError (Failed_to_get_job_status (json r))) \/
  (status_code r = 200 /\ json r !! "status" = None /\
   e = KeyError "status") \/
  (status_code r = 200 /\
   exists status,
     observed r = Some status /\
     status <> "Pending" /\ status <> "Running" /\ status <> "Done" /\
     e = AssertionError (Job_failed status)).

(** The files on disk after the events: a later [Save] replaces an
    earlier one of the same path. *)
Definition files (evs : list event) : gmap string string :=
  fold_left (fun fs ev => match ev with
                          | Save path bytes => <[path := bytes]> fs
                          | _ => fs
                          end) evs ∅.

(** A request of the session: with the session headers, below the base URL
    of the user, and without the API key in its body. *)
Definition in_session (base_url : string) (hd : gmap string string)
    (ev : event) : Prop :=
  match ev with
  | Call rq _ =>
      rq_headers rq = hd /\
      (exists path, rq_url rq = base_url +:+ path) /\
      (forall d, rq_data rq = Some d -> d !! "ngc_api_key" = None)
  | _ => True
  end.

(** ** The cell that picks the pretrained models

    "Training a MONAI Segmentation Bundle" and "Dataset Creation and
    Experiment Selection" read two ids off the experiments listing; the
    code from [res = response.json()] on. *)

Module Pretrained.

(** An element of the listing, with the keys the cell reads. *)
Record experiment := {
  id : string;
  network_arch : string;
  base_experiment : list string;
}.

(** [p["network_arch"] == arch and not len(p["base_experiment"])] *)
Definition is_base (arch : string) (p : experiment) : bool :=
  String.eqb (network_arch p) arch &&
  negb (0 <? length (base_experiment p))%nat.

(** [[p for p in res if ...][0]["id"]] *)
Definition ptm_vista (res : list experiment) : exn + string :=
  match List.filter (is_base "monai_vista3d") res with
  | p :: _ => inr (id p)
  | [] => inl IndexError
  end.

Definition ptm_annotation (res : list experiment) : exn + string :=
  match List.filter (is_base "monai_annotation") res with
  | p :: _ => inr (id p)
  | [] => inl IndexError
  end.

End Pretrained.

(** ** The clean-up cells of the other two notebooks

    "Training a Custom MONAI Bundle" and "Working with MONAI Auto3DSeg"
    end with clean-up cells of their own.  Their assertions have messages
    of their own and one of them reads a name that is never bound, so they
    run in a monad with more exceptions, over the same world. *)

(** The messages of the assertions of these cells. *)
Inductive refusal :=
| Delete_base_experiment_failed (got : gmap string string)
    (* "Delete base experiment failed, got {response.json()}." *)
| Delete_dataset_failed (got : gmap string string)
    (* "Delete dataset failed, got {response.json()}." *)
| Cancel_job_id_failed (job_id : string) (got : gmap string string)
    (* "Cancel job {automl_job_id} failed, got {response.json()}." *)
| Delete_automl_experiment_failed (got : gmap string string)
| Delete_inference_experiment_failed (got : gmap string string)
| Delete_inference_dataset_failed (got : gmap string string)
| Download_failed_archive_not_created.
    (* "Download failed, archive has not been created." *)

Inductive error :=
| Exn (e : exn)              (* an exception of the cells above *)
| Assertion (msg : refusal)  (* AssertionError with one of these messages *)
| NameError (name : string)
| HTTPError (code : Z).      (* requests.exceptions.HTTPError *)

Inductive outcome (A : Type) :=
| Returned (a : A) (w : world)
| Failed (e : error) (w : world)
| Waiting (w : world).

Arguments Returned {A} a w.
Arguments Failed {A} e w.
Arguments Waiting {A} w.

Definition N (A : Type) : Type := world -> outcome A.

Definition returns {A} (a : A) : N A := fun w => Returned a w.

Definition fails {A} (e : error) : N A := fun w => Failed e w.

Definition and_then {A B} (m : N A) (k : A -> N B) : N B :=
  fun w =>
    match m w with
    | Returned a w' => k a w'
    | Failed e w' => Failed e w'
    | Waiting w' => Waiting w'
    end.

(** A computation of the cells above, run here. *)
Definition lift {A} (m : M A) : N A :=
  fun w =>
    match m w with
    | Ok a w' => Returned a w'
    | Raise e w' => Failed (Exn e) w'
    | Stuck w' => Waiting w'
    end.

Notation "'let+' x ':=' m 'in' k" := (and_then m (fun x => k))
  (at level 10, x name, m at level 100, k at level 200).
Notation "m '>>+' k" := (and_then m (fun _ => k))
  (at level 100, k at level 200, right associativity).

(** [assert cond, msg] with a message of these cells *)
Definition check (cond : bool) (msg : refusal) : N unit :=
  if cond then returns tt else fails (Assertion msg).

Module CustomBundle.

(** The cell "for base_experiment_id in base_experiment_ids: ...". *)
Fixpoint delete_base_experiments (base_url : string)
    (headers : gmap string string) (base_experiment_ids : list string)
    : N unit :=
  match base_experiment_ids with
  | [] => returns tt
  | base_experiment_id :: others =>
      let endpoint := base_url +:+ "/experiments/" +:+ base_experiment_id in
      let+ response := lift (requests_delete endpoint headers) in
      check (status_code response =? 200)%Z
            (Delete_base_experiment_failed (json response)) >>+
      lift (print (repr_response response) nl) >>+
      delete_base_experiments base_url headers others
  end.

(** The cell that deletes the dataset. *)
Definition delete_dataset (base_url : string) (headers : gmap string string)
    (dataset_id : string) : N unit :=
  let endpoint := base_url +:+ "/datasets/" +:+ dataset_id in
  let+ response := lift (requests_delete endpoint headers) in
  check (status_code response =? 200)%Z
        (Delete_dataset_failed (json response)) >>+
  lift (print (repr_response response) nl).

(** "Cleaning Up": its first cell is the one of the segmentation notebook,
    word for word; then the base experiments, then the dataset. *)
Definition cleanup (base_url : string) (headers : gmap string string)
    (experiment_id job_id : string) (base_experiment_ids : list string)
    (dataset_id : string) : N unit :=
  lift (delete_experiment base_url headers experiment_id job_id) >>+
  delete_base_experiments base_url headers base_experiment_ids >>+
  delete_dataset base_url headers dataset_id.

(** What the loop appends for the ids deleted with the responses [rs]. *)
Fixpoint deletions (base_url : string) (headers : gmap string string)
    (ids : list string) (rs : list response) : list event :=
  match ids, rs with
  | i :: ids', r :: rs' =>
      Call (delete_request (base_url +:+ "/experiments/" +:+ i) headers)
           (Some r)
      :: Print (repr_response r +:+ nl)
      :: deletions base_url headers ids' rs'
  | _, _ => []
  end.

End CustomBundle.

Module Auto3DSegCleanup.

(** The cell that cancels the AutoML job unless it is done. *)
Definition cancel_automl_job (base_url : string) (headers : gmap string string)
    (automl_experiment_id automl_job_id : string) : N unit :=
  let endpoint := base_url +:+ "/experiments/" +:+ automl_experiment_id
                           +:+ "/jobs/" +:+ automl_job_id in
  let+ response := lift (requests_get endpoint headers) in
  let+ status := lift (getitem (json response) "status") in
  if negb (String.eqb status "Done") then
    let endpoint := (base_url +:+ "/experiments/" +:+ automl_experiment_id
                              +:+ "/jobs/" +:+ automl_job_id) +:+ ":cancel" in
    let+ response := lift (requests_post endpoint headers) in
    check (status_code response =? 200)%Z
          (Cancel_job_id_failed automl_job_id (json response)) >>+
    lift (print (repr_response response) nl)
  else returns tt.

(** The cell for the inference job.  Its cancel branch builds the endpoint
    from [job_id], a name the notebook never binds: evaluating the
    f-string raises NameError before anything is sent. *)
Definition cancel_inference_job (base_url : string)
    (headers : gmap string string) (experiment_id infer_job_id : string)
    : N unit :=
  let endpoint := base_url +:+ "/experiments/" +:+ experiment_id
                           +:+ "/jobs/" +:+ infer_job_id in
  let+ response := lift (requests_get endpoint headers) in
  let+ status := lift (getitem (json response) "status") in
  if negb (String.eqb status "Done") then fails (NameError "job_id")
  else returns tt.

(** The cell that deletes the two experiments and the two datasets. *)
Definition delete_all (base_url : string) (headers : gmap string string)
    (automl_experiment_id experiment_id train_dataset_id infer_dataset_id
       : string) : N unit :=
  let endpoint := base_url +:+ "/experiments/" +:+ automl_experiment_id in
  let+ response := lift (requests_delete endpoint headers) in
  check (status_code response =? 200)%Z
        (Delete_automl_experiment_failed (json response)) >>+
  lift (print (repr_response response) nl) >>+
  let endpoint := base_url +:+ "/experiments/" +:+ experiment_id in
  let+ response := lift (requests_delete endpoint headers) in
  check (status_code response =? 200)%Z
        (Delete_inference_experiment_failed (json response)) >>+
  lift (print (repr_response response) nl) >>+
  let endpoint := base_url +:+ "/datasets/" +:+ train_dataset_id in
  let+ response := lift (requests_delete endpoint headers) in
  lift (assert (status_code response =? 200)%Z
               (Delete_train_dataset_failed (json response))) >>+
  lift (print (repr_response response) nl) >>+
  let endpoint := base_url +:+ "/datasets/" +:+ infer_dataset_id in
  let+ response := lift (requests_delete endpoint headers) in
  check (status_code response =? 200)%Z
        (Delete_inference_dataset_failed (json response)) >>+
  lift (print (repr_response response) nl).

(** "Cleaning Up": the three cells in notebook order. *)
Definition cleanup (base_url : string) (headers : gmap string string)
    (automl_experiment_id automl_job_id experiment_id infer_job_id
       train_dataset_id infer_dataset_id : string) : N unit :=
  cancel_automl_job base_url headers automl_experiment_id automl_job_id >>+
  cancel_inference_job base_url headers experiment_id infer_job_id >>+
  delete_all base_url headers automl_experiment_id experiment_id
             train_dataset_id infer_dataset_id.

End Auto3DSegCleanup.

Module Auto3DSegResults.

(** [Response.raise_for_status()] of requests: HTTPError for the client
    and server error codes, nothing otherwise. *)
Definition raise_for_status (r : response) : N unit :=
  if (400 <=? status_code r)%Z && (status_code r <? 600)%Z
  then fails (HTTPError (status_code r))
  else returns tt.

(** [os.path.exists(path)], on a disk that holds what the events so far
    have saved. *)
Definition path_exists (path : string) : N bool :=
  fun w => Returned (bool_decide (is_Some (files (trace w) !! path))) w.

(** The cell "Download the result of the Inference Job".  The chunks of
    [r.iter_content] are written one after the other to the file opened
    with "wb": the file ends up with the body of the response. *)
Definition download_results (base_url : string) (headers : gmap string string)
    (experiment_id infer_job_id : string) : N unit :=
  let endpoint := base_url +:+ "/experiments/" +:+ experiment_id
                           +:+ "/jobs/" +:+ infer_job_id in
  let+ response := lift (requests_get endpoint headers) in
  let+ status := lift (getitem (json response) "status") in
  if String.eqb status "Done" then
    let endpoint := (base_url +:+ "/experiments/" +:+ experiment_id
                              +:+ "/jobs/" +:+ infer_job_id) +:+ ":download" in
    let+ r := lift (requests_get endpoint headers) in
    raise_for_status r >>+
    lift (print "Downloading job results..." nl) >>+
    let output_file := infer_job_id +:+ ".tar.gz" in
    lift (write_file output_file (content r)) >>+
    lift (print ("Inference results are downloaded at " +:+ output_file) nl) >>+
    let+ there := path_exists output_file in
    check there Download_failed_archive_not_created
  else returns tt.

End Auto3DSegResults.

(** ** The login cells of the other notebooks *)

Module Credentials.

(** "Generating and Managing Your Credentials": the cell of the
    segmentation notebook without the line that prints the status code. *)
Definition login (host_url ngc_api_key : string) : M session :=
  let data := {[ "ngc_api_key" := ngc_api_key ]} in
  let* response := requests_post_data (host_url +:+ "/api/v1/login") data in
  assert (status_code response =? 201)%Z (Login_failed (status_code response)) >>
  assert (has_key (json response) "user_id") user_id_not_in_response >>
  let* user_id := getitem (json response) "user_id" in
  print ("User ID" +:+ " " +:+ user_id) nl >>
  assert (has_key (json response) "token") token_not_in_response >>
  let* token := getitem (json response) "token" in
  print ("JWT" +:+ " " +:+ token) nl >>
  let base_url := host_url +:+ "/api/v1/users/" +:+ user_id in
  print ("API Calls will be forwarded to" +:+ " " +:+ base_url) nl >>
  let headers := {[ "Authorization" := "Bearer " +:+ token ]} in
  ret {| user_id := user_id; token := token; base_url := base_url;
         headers := headers |}.

End Credentials.

Module QuietLogin.

(** "Dataset Creation and Experiment Selection" and "Working with MONAI
    Auto3DSeg": the three assertions come first, the URLs are built from
    [api_url], and nothing is printed. *)
Definition login (host_url ngc_api_key : string) : M session :=
  let api_url := host_url +:+ "/api/v1" in
  let* response :=
    requests_post_data (api_url +:+ "/login")
                       {[ "ngc_api_key" := ngc_api_key ]} in
  assert (status_code response =? 201)%Z (Login_failed (status_code response)) >>
  assert (has_key (json response) "user_id") user_id_not_in_response >>
  assert (has_key (json response) "token") token_not_in_response >>
  let* uid := getitem (json response) "user_id" in
  let* token := getitem (json response) "token" in
  let base_url := api_url +:+ "/users/" +:+ uid in
  let headers := {[ "Authorization" := "Bearer " +:+ token ]} in
  ret {| user_id := uid; token := token; base_url := base_url;
         headers := headers |}.

End QuietLogin.

(** A run without what it printed. *)
Definition unprinted (ev : event) : bool :=
  match ev with
  | Print _ => false
  | _ => true
  end.

Definition quietly {A} (r : result A) : result A :=
  let mute w := {| replies := replies w; clock := clock w;
                   trace := List.filter unprinted (trace w) |} in
  match r with
  | Ok a w => Ok a (mute w)
  | Raise e w => Raise e (mute w)
  | Stuck w => Stuck (mute w)
  end.

(** ** The whole segmentation notebook

    The cells between the login and the monitoring create the two
    datasets, list the base experiments, create the experiment and start
    the train job.  They print dicts and read bodies that are not objects
    of strings; what Python makes of these is kept abstract. *)

(** A value of a request body that is not a string. *)
Inductive jvalue :=
| JStrings (items : list string)         (* a list of strings *)
| JNumbers (fields : list (string * Z)). (* an object of numbers *)

(** [requests.post(endpoint, data=json.dumps(d), headers=hd)] and
    [requests.post(endpoint, json=d, headers=hd)]: the fields of the
    object sent. *)
Definition requests_post_body (endpoint : string) (d : gmap string string)
    (hd : gmap string string) : M response :=
  send {| rq_method := POST; rq_url := endpoint; rq_headers := hd;
          rq_data := Some d |}.

(** The value of an expression that may raise. *)
Definition evaluate {A} (v : exn + A) : M A :=
  match v with
  | inl e => raise e
  | inr a => ret a
  end.

Section WholeNotebook.

(** [str(d)] of a dict, as [print(d)] shows it, and
    [json.dumps(d, indent=2)]. *)
Variable repr_dict : gmap string string -> string.
Variable dumps_indent : gmap string string -> string.

(** [response.json()] of the experiments listing, a list of objects, and
    of the job creation, a string. *)
Variable json_list : response -> list Pretrained.experiment.
Variable json_str : response -> string.

(** A value of a request body that is not a string, as it is recorded in
    the fields of the request. *)
Variable json_text : jvalue -> string.

(** The cell "Create the training dataset and the validation dataset". *)
Definition create_datasets (base_url : string) (headers : gmap string string)
    (access_id access_secret train_manifest_url val_manifest_url : string)
    : M (string * string) :=
  let data :=
    {[ "name" := "MONAI_seg_train";
       "description" := "Object storage dataset for training";
       "type" := "semantic_segmentation";
       "format" := "monai";
       "client_url" := train_manifest_url;
       "client_id" := access_id;
       "client_secret" := access_secret ]} in
  let endpoint := base_url +:+ "/datasets" in
  print endpoint nl >>
  print (repr_dict headers) nl >>
  let* response := requests_post_body endpoint data headers in
  print (repr_dict (json response)) nl >>
  assert (status_code response =? 201)%Z
         (Create_train_dataset_failed (json response)) >>
  let res := json response in
  let* train_dataset_id := getitem res "id" in
  print ("Train dataset creation succeeded with dataset ID:" +:+ " "
           +:+ train_dataset_id) nl >>
  print ("---------------------------------" +:+ nl) nl >>
  print (dumps_indent res) nl >>
  let data :=
    {[ "name" := "MONAI_seg_val";
       "description" := "Object storage dataset for validation";
       "type" := "semantic_segmentation";
       "format" := "monai";
       "client_url" := val_manifest_url;
       "client_id" := access_id;
       "client_secret" := access_secret ]} in
  let endpoint := base_url +:+ "/datasets" in
  print endpoint nl >>
  print (repr_dict headers) nl >>
  let* response := requests_post_body endpoint data headers in
  print (repr_dict (json response)) nl >>
  assert (status_code response =? 201)%Z
         (Create_val_dataset_failed (json response)) >>
  let res := json response in
  let* val_dataset_id := getitem res "id" in
  print ("Validation dataset creation succeeded with dataset ID:" +:+ " "
           +:+ val_dataset_id) nl >>
  print ("---------------------------------" +:+ nl) nl >>
  print (dumps_indent res) nl >>
  ret (train_dataset_id, val_dataset_id).

(** The cell "List Available Base Experiments". *)
Definition list_base_experiments (base_url : string)
    (headers : gmap string string) : M (string * string) :=
  let endpoint := base_url +:+ "/experiments" in
  let* response := requests_get endpoint headers in
  assert (status_code response =? 200)%Z
         (List_Base_Experiments_failed (json response)) >>
  let res := json_list response in
  let* ptm_vista := evaluate (Pretrained.ptm_vista res) in
  print ("Base Experiment ID for VISTA Experiment: " +:+ ptm_vista) nl >>
  let* ptm_annotation := evaluate (Pretrained.ptm_annotation res) in
  print ("Base Experiment ID for DeepEdit(Annotation) Experiment: "
           +:+ ptm_annotation) nl >>
  ret (ptm_vista, ptm_annotation).

(** The cell "Create Experiment". *)
Definition create_experiment (base_url : string)
    (headers : gmap string string)
    (ptm_vista train_dataset_id val_dataset_id : string) : M string :=
  let data :=
    {[ "name" := "my_vista";
       "description" := "based on vista";
       "network_arch" := "monai_vista3d";
       "type" := "medical";
       "base_experiment" := json_text (JStrings [ptm_vista]);
       "eval_dataset" := val_dataset_id;
       "train_datasets" := json_text (JStrings [train_dataset_id]) ]} in
  let endpoint := base_url +:+ "/experiments" in
  let* response := requests_post_body endpoint data headers in
  assert (status_code response =? 201)%Z
         (Create_experiment_failed (json response)) >>
  let res := json response in
  let* experiment_id := getitem res "id" in
  let* model_network := getitem res "network_arch" in
  print ("Experiment creation succeeded with experiment ID: " +:+ " "
           +:+ experiment_id) nl >>
  print ("---------------------------------" +:+ nl) nl >>
  print (dumps_indent res) nl >>
  ret experiment_id.

(** The cell "Run a DGX Train Job". *)
Definition run_train_job (base_url : string) (headers : gmap string string)
    (experiment_id : string) : M string :=
  let train_spec :=
    JNumbers [("train#trainer#max_epochs", 2); ("val_interval", 1)] in
  let data :=
    {[ "name" := "my_monai_segmentation";
       "action" := "train";
       "specs" := json_text train_spec ]} in
  let endpoint := base_url +:+ "/experiments/" +:+ experiment_id +:+ "/jobs" in
  let* response := requests_post_body endpoint data headers in
  assert (status_code response =? 201)%Z
         (Run_dgx_train_job_failed (json response)) >>
  let job_id := json_str response in
  print ("Job creation succeeded with job ID: " +:+ " " +:+ job_id) nl >>
  ret job_id.

(** The cells after the login, in notebook order. *)
Definition after_login (s : session)
    (access_id access_secret train_manifest_url val_manifest_url : string)
    : M unit :=
  let base_url := base_url s in
  let headers := headers s in
  let* datasets :=
    create_datasets base_url headers access_id access_secret
                    train_manifest_url val_manifest_url in
  let train_dataset_id := fst datasets in
  let val_dataset_id := snd datasets in
  let* pretrained := list_base_experiments base_url headers in
  let ptm_vista := fst pretrained in
  let* experiment_id :=
    create_experiment base_url headers ptm_vista train_dataset_id
                      val_dataset_id in
  let* job_id := run_train_job base_url headers experiment_id in
  monitor base_url headers experiment_id job_id >>
  download base_url headers experiment_id job_id >>
  cleanup base_url headers experiment_id job_id
          train_dataset_id val_dataset_id.

(** The notebook with all its cells that send requests, from the login
    on; the parameters are the names bound in its set-up cell. *)
Definition whole_notebook
    (host_url ngc_api_key access_id access_secret
       train_manifest_url val_manifest_url : string) : M unit :=
  let* s := login host_url ngc_api_key in
  after_login s access_id access_secret train_manifest_url val_manifest_url.

End WholeNotebook.


(** The world an outcome ends in. *)
Definition ended {A} (o : outcome A) : world :=
  match o with
  | Returned _ w => w
  | Failed _ w => w
  | Waiting w => w
  end.

Arguments title : simpl never.
Arguments pretty : simpl never.

(** ** Basic facts *)

Lemma not_in_pending_running_false (status : string) :
  not_in_pending_running status = false <->
  status = "Pending" \/ status = "Running".
Proof.
  unfold not_in_pending_running.
  rewrite negb_false_iff, orb_true_iff, !String.eqb_eq. tauto.
Qed.

Lemma not_in_pending_running_true (status : string) :
  not_in_pending_running status = true <->
  status <> "Pending" /\ status <> "Running".
Proof.
  unfold not_in_pending_running.
  rewrite negb_true_iff, orb_false_iff, !String.eqb_neq. tauto.
Qed.

Lemma last_answer_app (l1 l2 : list event) :
  last_answer (l1 ++ l2) =
  match last_answer l2 with
  | Some r => Some r
  | None => last_answer l1
  end.
Proof.
  induction l1 as [|ev l1 IH]; simpl.
  - destruct (last_answer l2); reflexivity.
  - rewrite IH. destruct (last_answer l2); reflexivity.
Qed.

(** Unfold the monad on the world at hand. *)
Ltac run :=
  repeat (progress (unfold bind, ret, raise, assert, getitem, print, time_time,
                      time_sleep, write_file, requests_get, requests_post,
                      requests_delete, requests_get_data, requests_post_data,
                      get_request, post_request, delete_request, send, log;
                    cbn [replies clock trace final Z.eqb Pos.eqb negb
                         String.eqb Ascii.eqb Bool.eqb])).

(** ** One turn of the loop *)

Section Loop.

Variables (endpoint : string) (hd : gmap string string).
Variables (timeout start_time : Z).

Lemma wait_loop_unfold (fuel : nat) (status : string) :
  wait_loop (S fuel) endpoint hd timeout start_time status =
    if not_in_pending_running status then
      assert (String.eqb status "Done") (Job_failed status) >>
      ret status
    else
      time_sleep 5 >>
      let* response := requests_get endpoint hd in
      assert (status_code response =? 200)%Z
             (Failed_to_get_job_status (json response)) >>
      let* raw := getitem (json response) "status" in
      let status_new := title raw in
      let* status :=
        (if negb (String.eqb status_new status)
         then print (nl +:+ status_new) "" >> ret status_new
         else print "." "" >> ret status) in
      let* now := time_time in
      if (now - start_time >? timeout)%Z then
        print ("Job timeout after " +:+ pretty timeout +:+ " seconds.") nl >>
        ret status
      else wait_loop fuel endpoint hd timeout start_time status.
Proof. reflexivity. Qed.

(** At the top of a turn a status outside Pending and Running ends the
    loop: normally for Done, with the failure assertion otherwise. *)
Lemma wait_loop_exit (fuel : nat) (status : string) (w : world) :
  not_in_pending_running status = true ->
  wait_loop (S fuel) endpoint hd timeout start_time status w =
    if String.eqb status "Done" then Ok status w
    else Raise (AssertionError (Job_failed status)) w.
Proof.
  intros Hnot. rewrite wait_loop_unfold, Hnot.
  destruct (String.eqb status "Done"); run; reflexivity.
Qed.

(** A turn that polls: sleep, request, report, then the clock. *)
Lemma wait_loop_poll (fuel : nat) (status status_new : string)
    (r : response) (rest : list response) (t : Z) (ts : list Z)
    (tr : list event) :
  not_in_pending_running status = false ->
  answers r status_new ->
  wait_loop (S fuel) endpoint hd timeout start_time status
    {| replies := r :: rest; clock := t :: ts; trace := tr |} =
  let w' := {| replies := rest; clock := ts;
               trace := tr ++ poll_events endpoint hd status r status_new |} in
  if (t - start_time >? timeout)%Z
  then Ok status_new (log (Print (timeout_line timeout)) w')
  else wait_loop fuel endpoint hd timeout start_time status_new w'.
Proof.
  intros Hin [H200 Hobs]. unfold observed in Hobs.
  destruct (json r !! "status") as [raw|] eqn:Hraw; [|discriminate].
  simpl in Hobs. injection Hobs as <-.
  rewrite wait_loop_unfold, Hin. run. rewrite H200, Hraw. run.
  unfold poll_events, timeout_line, get_request.
  destruct (String.eqb (title raw) status) eqn:E; run.
  - apply String.eqb_eq in E. subst status.
    rewrite <- !app_assoc. simpl.
    destruct (t - start_time >? timeout)%Z; run; rewrite <- ?app_assoc;
      reflexivity.
  - rewrite <- !app_assoc. simpl.
    destruct (t - start_time >? timeout)%Z; run; rewrite <- ?app_assoc;
      reflexivity.
Qed.

End Loop.

Arguments wait_loop : simpl never.

(** ** Runs of the poller *)

Section Runs.

Variables (endpoint : string) (hd : gmap string string) (timeout : Z).

Lemma wait_for_job_enter (r : response) (rest : list response)
    (t0 : Z) (ts : list Z) (tr : list event) (status : string) :
  answers r status ->
  wait_for_job endpoint hd timeout
    {| replies := r :: rest; clock := t0 :: ts; trace := tr |} =
  wait_finish
    (wait_loop (S (length rest)) endpoint hd timeout t0 status
       {| replies := rest; clock := ts;
          trace := tr ++ first_events endpoint hd r status |}).
Proof.
  intros [H200 Hobs]. unfold observed in Hobs.
  destruct (json r !! "status") as [raw|] eqn:Hraw; [|discriminate].
  simpl in Hobs. injection Hobs as <-.
  unfold wait_for_job, first_events, get_request. run.
  rewrite H200, Hraw. run. rewrite <- !app_assoc. simpl.
  match goal with
  | |- context [wait_loop ?f ?e ?h ?t ?s ?st ?w] =>
      destruct (wait_loop f e h t s st w)
  end; reflexivity.
Qed.

(** Polls that show Pending or Running within the timeout keep the loop
    going: the loop is then at its top again, with one of the two
    statuses. *)
Lemma wait_loop_running (start_time : Z) (mids : list response) :
  forall (within : list Z) (fuel : nat) (status : string)
         (rest : list response) (ts : list Z) (tr : list event),
    length within = length mids ->
    Forall still_running mids ->
    Forall (fun t => t - start_time <= timeout) within ->
    not_in_pending_running status = false ->
    exists (evs : list event) (status' : string),
      not_in_pending_running status' = false /\
      wait_loop (length mids + fuel) endpoint hd timeout start_time status
        {| replies := mids ++ rest; clock := within ++ ts; trace := tr |} =
      wait_loop fuel endpoint hd timeout start_time status'
        {| replies := rest; clock := ts; trace := tr ++ evs |}.
Proof.
  induction mids as [|r mids IH]; intros within fuel status rest ts tr
    Hlen Hrun Hwithin Hst.
  - destruct within; [|discriminate]. exists [], status.
    rewrite app_nil_r. auto.
  - destruct within as [|t within]; [discriminate|].
    injection Hlen as Hlen.
    apply Forall_cons_1 in Hrun as [Hr Hrun].
    apply Forall_cons_1 in Hwithin as [Ht Hwithin].
    assert (exists s, answers r s /\ not_in_pending_running s = false)
      as (s & Hs & Hs').
    { destruct Hr as [Hr|Hr]; eexists; (split; [exact Hr|reflexivity]). }
    destruct (IH within fuel s rest ts
                (tr ++ poll_events endpoint hd status r s)
                Hlen Hrun Hwithin Hs') as (evs & s' & Hs'' & Heq).
    exists (poll_events endpoint hd status r s ++ evs), s'.
    split; [exact Hs''|].
    change (length (r :: mids) + fuel)%nat with (S (length mids + fuel)).
    change ((r :: mids) ++ rest) with (r :: (mids ++ rest)).
    change ((t :: within) ++ ts) with (t :: (within ++ ts)).
    rewrite (wait_loop_poll _ _ _ _ _ _ s _ _ _ _ _ Hst Hs).
    cbv zeta.
    assert ((t - start_time >? timeout) = false) as -> by lia.
    rewrite Heq, app_assoc. reflexivity.
Qed.

End Runs.

(** ** The scripted runs of the specification *)

(** C2: on the statuses Pending, Pending, Running, Done, observed one
    polling interval apart, [wait_for_job] with a timeout of at least three
    intervals ends normally: it reports Done, prints no timeout and raises
    nothing. *)
Theorem scripted_run_reports_done (endpoint : string) (hd : gmap string string)
    (timeout t0 interval : Z) (p1 p2 r d : response)
    (rest : list response) (ts : list Z) (tr : list event) :
  answers p1 "Pending" -> answers p2 "Pending" ->
  answers r "Running" -> answers d "Done" ->
  0 <= interval -> 3 * interval <= timeout ->
  wait_for_job endpoint hd timeout
    {| replies := p1 :: p2 :: r :: d :: rest;
       clock := t0 :: t0 + interval :: t0 + 2 * interval
                   :: t0 + 3 * interval :: ts;
       trace := tr |} =
  Ok PyNone
    {| replies := rest; clock := ts;
       trace := tr ++ first_events endpoint hd p1 "Pending"
                   ++ poll_events endpoint hd "Pending" p2 "Pending"
                   ++ poll_events endpoint hd "Pending" r "Running"
                   ++ poll_events endpoint hd "Running" d "Done"
                   ++ [Print (job_status_line "Done")] |}.
Proof.
  intros Hp1 Hp2 Hr Hd Hi Ht.
  rewrite (wait_for_job_enter _ _ _ _ _ _ _ _ _ Hp1).
  cbn [length].
  rewrite (wait_loop_poll _ _ _ _ _ "Pending" "Pending" _ _ _ _ _ eq_refl Hp2).
  cbv zeta.
  assert ((t0 + interval - t0 >? timeout) = false) as -> by lia.
  rewrite (wait_loop_poll _ _ _ _ _ "Pending" "Running" _ _ _ _ _ eq_refl Hr).
  cbv zeta.
  assert ((t0 + 2 * interval - t0 >? timeout) = false) as -> by lia.
  rewrite (wait_loop_poll _ _ _ _ _ "Running" "Done" _ _ _ _ _ eq_refl Hd).
  cbv zeta.
  assert ((t0 + 3 * interval - t0 >? timeout) = false) as -> by lia.
  rewrite wait_loop_exit by reflexivity.
  cbn [String.eqb Ascii.eqb Bool.eqb wait_finish].
  unfold log. cbn [replies clock trace].
  rewrite <- !app_assoc. reflexivity.
Qed.

Lemma scripted_run_reports_done_witness :
  answers (status_response "Pending") "Pending" /\
  answers (status_response "Running") "Running" /\
  answers (status_response "Done") "Done" /\
  0 <= 5 /\ 3 * 5 <= 15 /\
  wait_for_job "job" ∅ 15
    {| replies := [status_response "Pending"; status_response "Pending";
                   status_response "Running"; status_response "Done"];
       clock := [0; 0 + 5; 0 + 2 * 5; 0 + 3 * 5];
       trace := [] |} =
  Ok PyNone
    {| replies := []; clock := [];
       trace := [] ++ first_events "job" ∅ (status_response "Pending") "Pending"
                   ++ poll_events "job" ∅ "Pending" (status_response "Pending")
                        "Pending"
                   ++ poll_events "job" ∅ "Pending" (status_response "Running")
                        "Running"
                   ++ poll_events "job" ∅ "Running" (status_response "Done")
                        "Done"
                   ++ [Print (job_status_line "Done")] |}.
Proof.
  assert (answers (status_response "Pending") "Pending") as Hp
    by (split; vm_compute; reflexivity).
  assert (answers (status_response "Running") "Running") as Hr
    by (split; vm_compute; reflexivity).
  assert (answers (status_response "Done") "Done") as Hd
    by (split; vm_compute; reflexivity).
  assert (0 <= 5) as Hi by lia.
  assert (3 * 5 <= 15) as Ht by lia.
  repeat (split; [assumption|]).
  exact (scripted_run_reports_done "job" ∅ 15 0 5 _ _ _ _ [] [] []
           Hp Hp Hr Hd Hi Ht).
Defined.

(** C3: when every response shows Pending or Running and the clock passes
    the timeout at some poll, the loop ends there: [wait_for_job] returns
    normally, its last two lines are the timeout report and the status of
    the last response, which is still Pending or Running. *)
Theorem running_until_timeout (endpoint : string) (hd : gmap string string)
    (timeout t0 t_over : Z) (r0 r_last : response) (mids : list response)
    (within : list Z) (rest : list response) (ts : list Z) (tr : list event) :
  Forall still_running (r0 :: mids ++ [r_last]) ->
  length within = length mids ->
  Forall (fun t => t - t0 <= timeout) within ->
  timeout < t_over - t0 ->
  exists (status : string) (evs : list event),
    answers r_last status /\
    (status = "Pending" \/ status = "Running") /\
    wait_for_job endpoint hd timeout
      {| replies := r0 :: mids ++ r_last :: rest;
         clock := t0 :: within ++ t_over :: ts;
         trace := tr |} =
    Ok PyNone
      {| replies := rest; clock := ts;
         trace := tr ++ evs ++ [Print (timeout_line timeout);
                                Print (job_status_line status)] |}.
Proof.
  intros Hall Hlen Hwithin Hover.
  apply Forall_cons_1 in Hall as [H0 Hall].
  apply Forall_app in Hall as [Hmids Hlast].
  apply Forall_cons_1 in Hlast as [Hlast _].
  assert (exists s, answers r0 s /\ not_in_pending_running s = false)
    as (s0 & Hs0 & Hs0').
  { destruct H0 as [H|H]; eexists; (split; [exact H|reflexivity]). }
  assert (exists s, answers r_last s /\ (s = "Pending" \/ s = "Running"))
    as (s & Hs & Hs').
  { destruct Hlast as [H|H]; eexists; (split; [exact H|]); auto. }
  rewrite (wait_for_job_enter _ _ _ _ _ _ _ _ _ Hs0).
  destruct (wait_loop_running endpoint hd timeout t0 mids within
              (S (S (length rest))) s0 (r_last :: rest) (t_over :: ts)
              (tr ++ first_events endpoint hd r0 s0)
              Hlen Hmids Hwithin Hs0') as (evs & s1 & Hs1 & Heq).
  replace (S (length (mids ++ r_last :: rest)))
    with (length mids + S (S (length rest)))%nat
    by (rewrite length_app; simpl; lia).
  exists s, (first_events endpoint hd r0 s0 ++ evs
             ++ poll_events endpoint hd s1 r_last s).
  split; [exact Hs|]. split; [exact Hs'|].
  rewrite Heq.
  rewrite (wait_loop_poll _ _ _ _ _ s1 s _ _ _ _ _ Hs1 Hs).
  cbv zeta.
  assert ((t_over - t0 >? timeout) = true) as -> by lia.
  cbn [wait_finish]. unfold log. cbn [replies clock trace].
  rewrite <- !app_assoc. reflexivity.
Qed.

Lemma running_until_timeout_witness :
  Forall still_running
    (status_response "Pending" :: [status_response "running"]
       ++ [status_response "RUNNING"]) /\
  length [5] = length [status_response "running"] /\
  Forall (fun t => t - 0 <= 10) [5] /\
  10 < 11 - 0 /\
  exists (status : string) (evs : list event),
    answers (status_response "RUNNING") status /\
    (status = "Pending" \/ status = "Running") /\
    wait_for_job "job" ∅ 10
      {| replies := status_response "Pending" :: [status_response "running"]
                      ++ status_response "RUNNING" :: [];
         clock := 0 :: [5] ++ 11 :: [];
         trace := [] |} =
    Ok PyNone
      {| replies := []; clock := [];
         trace := [] ++ evs ++ [Print (timeout_line 10);
                                Print (job_status_line status)] |}.
Proof.
  assert (Forall still_running
            (status_response "Pending" :: [status_response "running"]
               ++ [status_response "RUNNING"])) as H1.
  { repeat constructor;
      first [ left; split; vm_compute; reflexivity
            | right; split; vm_compute; reflexivity ]. }
  assert (Forall (fun t => t - 0 <= 10) [5]) as H2
    by (repeat constructor; lia).
  assert (10 < 11 - 0) as H3 by lia.
  split; [exact H1|]. split; [reflexivity|]. split; [exact H2|].
  split; [exact H3|].
  exact (running_until_timeout "job" ∅ 10 0 11 _ _ _ [5] [] [] []
           H1 eq_refl H2 H3).
Defined.

(** ** Invariants of the loop on every world *)

(** Split on the innermost scrutinee of the goal. *)
Ltac split_match :=
  match goal with
  | |- context [match ?x with _ => _ end] =>
      lazymatch x with
      | context [match _ with _ => _ end] => fail
      | _ => destruct x eqn:?
      end
  end.

Ltac turn := rewrite wait_loop_unfold; run; repeat (split_match; run).

(** Unfold the monad of the cells with more exceptions. *)
Ltac cells :=
  repeat (progress (unfold and_then, returns, fails, lift, check,
                      Auto3DSegResults.raise_for_status,
                      Auto3DSegResults.path_exists; run)).

Section Invariants.

Variables (endpoint : string) (hd : gmap string string).
Variables (timeout start_time : Z).

Lemma wait_loop_O (status : string) (w : world) :
  wait_loop 0 endpoint hd timeout start_time status w = Stuck w.
Proof. reflexivity. Qed.

(** The failure assertion only comes with a status that is neither
    Pending, Running nor Done. *)
Lemma wait_loop_job_failed (fuel : nat) :
  forall (status : string) (w : world) (s : string) (w' : world),
    wait_loop fuel endpoint hd timeout start_time status w =
      Raise (AssertionError (Job_failed s)) w' ->
    not_in_pending_running s = true /\ s <> "Done".
Proof.
  induction fuel as [|fuel IH]; intros status w s w'.
  - rewrite wait_loop_O. discriminate.
  - turn; intros H; try discriminate; try (eapply IH; exact H).
    injection H as <- <-. split; [assumption|].
    apply String.eqb_neq. assumption.
Qed.

(** The loop hands back the status of the last response received. *)
Lemma wait_loop_returns (fuel : nat) :
  forall (status : string) (w : world) (s : string) (w' : world),
    wait_loop fuel endpoint hd timeout start_time status w = Ok s w' ->
    (exists r, last_answer (trace w) = Some r /\ observed r = Some status) ->
    exists r, last_answer (trace w') = Some r /\ observed r = Some s.
Proof.
  induction fuel as [|fuel IH]; intros status w s w'.
  - rewrite wait_loop_O. discriminate.
  - turn; intros H Hlast; try discriminate;
      try (injection H as <- <-); try (eapply IH; [exact H|]); simpl;
      rewrite ?last_answer_app; simpl; try assumption;
      try (eexists; split; [reflexivity|]);
      unfold observed;
      repeat match goal with
             | E : json _ !! "status" = Some _ |- _ => rewrite E; clear E
             end; simpl; try reflexivity.
    all: match goal with
         | E : negb (String.eqb _ _) = false |- _ =>
             apply negb_false_iff, String.eqb_eq in E; congruence
         end.
Qed.

(** With the fuel [wait_for_job] gives it, the loop stops short only
    where the script ends. *)
Lemma wait_loop_stuck (fuel : nat) :
  forall (status : string) (w w' : world),
    (length (replies w) < fuel)%nat ->
    wait_loop fuel endpoint hd timeout start_time status w = Stuck w' ->
    replies w' = [] \/ clock w' = [].
Proof.
  induction fuel as [|fuel IH]; intros status w w'; [lia|].
  turn; intros Hlen H; try discriminate; try (injection H as <-);
    cbn [replies clock]; auto.
  all: eapply IH; [|exact H]; cbn [replies length] in *; lia.
Qed.

End Invariants.

(** [wait_for_job] never stops for lack of fuel: a run that does not end
    has used up the scripted responses or clock values. *)
Lemma wait_for_job_stuck (endpoint : string) (hd : gmap string string)
    (timeout : Z) (w w' : world) :
  wait_for_job endpoint hd timeout w = Stuck w' ->
  replies w' = [] \/ clock w' = [].
Proof.
  unfold wait_for_job. run. repeat (split_match; run);
    intros H; try discriminate; try (injection H as <-);
    cbn [replies clock]; auto.
  match goal with
  | E : wait_loop _ _ _ _ _ _ _ = Stuck _ |- _ =>
      apply wait_loop_stuck in E; [exact E|cbn [replies]; lia]
  end.
Qed.

(** ** Computations that send every request with the same headers *)

Lemma emits_ret {A} (P : event -> Prop) (a : A) : emits P (ret a).
Proof. intros w. exists []. rewrite app_nil_r. auto. Qed.

Lemma emits_raise {A} (P : event -> Prop) (e : exn) : emits P (@raise A e).
Proof. intros w. exists []. rewrite app_nil_r. auto. Qed.

Lemma emits_bind {A B} (P : event -> Prop) (m : M A) (k : A -> M B) :
  emits P m -> (forall a, emits P (k a)) -> emits P (bind m k).
Proof.
  intros Hm Hk w. destruct (Hm w) as (evs & Htr & HP). unfold bind.
  destruct (m w) as [a w1|e w1|w1]; simpl in *.
  - destruct (Hk a w1) as (evs' & Htr' & HP').
    exists (evs ++ evs'). rewrite Htr', Htr, app_assoc.
    split; [reflexivity|]. apply Forall_app. auto.
  - exists evs. auto.
  - exists evs. auto.
Qed.

Lemma emits_one {A} (P : event -> Prop) (a : A) (ev : event) :
  P ev -> emits P (fun w => Ok a (log ev w)).
Proof. intros HP w. exists [ev]. simpl. auto. Qed.

Lemma emits_assert (P : event -> Prop) (cond : bool) (msg : assertion) :
  emits P (assert cond msg).
Proof. destruct cond; [apply emits_ret|apply emits_raise]. Qed.

Lemma emits_getitem (P : event -> Prop) (d : gmap string string) (key : string) :
  emits P (getitem d key).
Proof.
  unfold getitem. destruct (d !! key); [apply emits_ret|apply emits_raise].
Qed.

Lemma emits_time_time (P : event -> Prop) : emits P time_time.
Proof.
  intros w. exists []. unfold time_time.
  destruct (clock w); simpl; rewrite app_nil_r; auto.
Qed.

Lemma emits_send (P : event -> Prop) (rq : request) :
  (forall answer, P (Call rq answer)) -> emits P (send rq).
Proof.
  intros HP w. unfold send.
  destruct (replies w) as [|r rs]; simpl; eexists; split; eauto.
Qed.

Ltac emits_step :=
  first
    [ apply emits_ret | apply emits_raise | apply emits_assert
    | apply emits_getitem | apply emits_time_time
    | apply emits_one; exact I
    | apply emits_send; intros; reflexivity
    | apply emits_bind; [|intros]
    | match goal with
      | |- emits _ (if ?b then _ else _) => destruct b
      end ].

Section Headers.

Variable hd : gmap string string.

Lemma wait_loop_emits (endpoint : string) (timeout start_time : Z)
    (fuel : nat) :
  forall status, emits (carries hd)
                   (wait_loop fuel endpoint hd timeout start_time status).
Proof.
  induction fuel as [|fuel IH]; intros status.
  - intros w. exists []. rewrite wait_loop_O, app_nil_r. auto.
  - rewrite wait_loop_unfold.
    unfold time_sleep, print, requests_get.
    repeat emits_step; apply IH.
Qed.

Lemma wait_for_job_emits (endpoint : string) (timeout : Z) :
  emits (carries hd) (wait_for_job endpoint hd timeout).
Proof.
  unfold wait_for_job, print, requests_get. repeat emits_step.
  intros w. apply wait_loop_emits.
Qed.

Lemma monitor_emits (base_url experiment_id job_id : string) :
  emits (carries hd) (monitor base_url hd experiment_id job_id).
Proof.
  unfold monitor, print, requests_get.
  repeat first [apply wait_for_job_emits | emits_step].
Qed.

Lemma download_emits (base_url experiment_id job_id : string) :
  emits (carries hd) (download base_url hd experiment_id job_id).
Proof.
  unfold download, print, write_file, requests_get, requests_get_data.
  repeat emits_step.
Qed.

Lemma cleanup_emits (base_url experiment_id job_id d1 d2 : string) :
  emits (carries hd) (cleanup base_url hd experiment_id job_id d1 d2).
Proof.
  unfold cleanup, delete_experiment, delete_datasets, print,
    requests_get, requests_post, requests_delete.
  repeat emits_step.
Qed.

Lemma evaluate_emits {A} (v : exn + A) : emits (carries hd) (evaluate v).
Proof. destruct v; [apply emits_raise|apply emits_ret]. Qed.

Section CreationCells.

Variables (repr_dict dumps_indent : gmap string string -> string)
          (json_list : response -> list Pretrained.experiment)
          (json_str : response -> string) (json_text : jvalue -> string).

Lemma create_datasets_emits
    (base_url access_id access_secret train_url val_url : string) :
  emits (carries hd)
        (create_datasets repr_dict dumps_indent base_url hd access_id
                         access_secret train_url val_url).
Proof.
  unfold create_datasets, print, requests_post_body. repeat emits_step.
Qed.

Lemma list_base_experiments_emits (base_url : string) :
  emits (carries hd) (list_base_experiments json_list base_url hd).
Proof.
  unfold list_base_experiments, print, requests_get.
  repeat first [apply evaluate_emits | emits_step].
Qed.

Lemma create_experiment_emits
    (base_url ptm_vista train_dataset_id val_dataset_id : string) :
  emits (carries hd)
        (create_experiment dumps_indent json_text base_url hd ptm_vista
                           train_dataset_id val_dataset_id).
Proof.
  unfold create_experiment, print, requests_post_body. repeat emits_step.
Qed.

Lemma run_train_job_emits (base_url experiment_id : string) :
  emits (carries hd) (run_train_job json_str json_text base_url hd
                                    experiment_id).
Proof.
  unfold run_train_job, print, requests_post_body. repeat emits_step.
Qed.

End CreationCells.

End Headers.

(** ** Failure, return value and the first poll *)

Lemma answers_status_response (wire status : string) :
  title wire = status -> answers (status_response wire) status.
Proof.
  intros <-. split; [reflexivity|]. unfold observed, status_response. simpl.
  rewrite lookup_singleton_eq. reflexivity.
Qed.

(** C1, as stated, fails: the statuses polled are Pending, Error, the
    timeout has passed when Error comes in, and [wait_for_job] returns
    normally after printing the timeout and "Job status: Error". *)
Lemma error_at_timeout_is_not_raised :
  answers (status_response "Error") "Error" /\
  wait_for_job "job" ∅ 0
    {| replies := [status_response "Pending"; status_response "Error"];
       clock := [0; 5]; trace := [] |} =
  Ok PyNone
    {| replies := []; clock := [];
       trace := first_events "job" ∅ (status_response "Pending") "Pending"
                ++ poll_events "job" ∅ "Pending" (status_response "Error") "Error"
                ++ [Print (timeout_line 0); Print (job_status_line "Error")] |}.
Proof.
  split; [apply answers_status_response; reflexivity|].
  vm_compute. reflexivity.
Qed.

(** C1, amended: (1) at the top of a turn a status outside Pending and
    Running ends the loop, with the failure assertion unless it is exactly
    Done; (2) on statuses that end in Error, every poll of the loop being
    within the timeout, [wait_for_job] raises "Job failed with status:
    Error"; (3) that assertion is never raised with Done, Pending or
    Running, so it differs from the normal returns on Done and on
    timeout. *)
Theorem job_failure_is_raised (endpoint : string) (hd : gmap string string)
    (timeout : Z) :
  (forall (fuel : nat) (start_time : Z) (status : string) (w : world),
      not_in_pending_running status = true ->
      wait_loop (S fuel) endpoint hd timeout start_time status w =
        if String.eqb status "Done" then Ok status w
        else Raise (AssertionError (Job_failed status)) w) /\
  (forall (rs : list response) (r_err : response) (t0 : Z) (within : list Z)
          (rest : list response) (ts : list Z) (tr : list event),
      Forall still_running rs ->
      answers r_err "Error" ->
      length within = length rs ->
      Forall (fun t => t - t0 <= timeout) within ->
      exists w',
        wait_for_job endpoint hd timeout
          {| replies := rs ++ r_err :: rest; clock := t0 :: within ++ ts;
             trace := tr |} =
        Raise (AssertionError (Job_failed "Error")) w' /\
        replies w' = rest /\ clock w' = ts) /\
  (forall (w : world) (s : string) (w' : world),
      wait_for_job endpoint hd timeout w =
        Raise (AssertionError (Job_failed s)) w' ->
      s <> "Done" /\ s <> "Pending" /\ s <> "Running").
Proof.
  split; [|split].
  - intros. apply wait_loop_exit. assumption.
  - intros rs r_err t0 within rest ts tr Hrs Herr Hlen Hwithin.
    destruct rs as [|r0 mids].
    + destruct within; [|discriminate]. simpl.
      rewrite (wait_for_job_enter _ _ _ _ _ _ _ _ _ Herr).
      rewrite wait_loop_exit by reflexivity. simpl. eauto.
    + apply Forall_cons_1 in Hrs as [H0 Hmids].
      assert (exists s, answers r0 s /\ not_in_pending_running s = false)
        as (s0 & Hs0 & Hs0').
      { destruct H0 as [H|H]; eexists; (split; [exact H|reflexivity]). }
      destruct (exists_last (l := within)) as (within' & t & ->).
      { intros ->. discriminate. }
      rewrite length_app in Hlen. simpl in Hlen.
      assert (length within' = length mids) as Hlen' by lia.
      apply Forall_app in Hwithin as [Hwithin' Ht].
      apply Forall_cons_1 in Ht as [Ht _].
      rewrite <- app_assoc. simpl.
      rewrite (wait_for_job_enter _ _ _ _ _ _ _ _ _ Hs0).
      destruct (wait_loop_running endpoint hd timeout t0 mids within'
                  (S (S (length rest))) s0 (r_err :: rest) (t :: ts)
                  (tr ++ first_events endpoint hd r0 s0)
                  Hlen' Hmids Hwithin' Hs0') as (evs & s1 & Hs1 & Heq).
      replace (S (length (mids ++ r_err :: rest)))
        with (length mids + S (S (length rest)))%nat
        by (rewrite length_app; simpl; lia).
      rewrite Heq.
      rewrite (wait_loop_poll _ _ _ _ _ s1 "Error" _ _ _ _ _ Hs1 Herr).
      cbv zeta.
      assert ((t - t0 >? timeout) = false) as -> by lia.
      rewrite wait_loop_exit by reflexivity. simpl. eauto.
  - intros w s w'. unfold wait_for_job. run. repeat (split_match; run);
      intros H; try discriminate.
    injection H as -> ->.
    match goal with
    | E : wait_loop _ _ _ _ _ _ _ = Raise _ _ |- _ =>
        apply wait_loop_job_failed in E as [E1 E2]
    end.
    apply not_in_pending_running_true in E1. tauto.
Qed.

Lemma job_failure_is_raised_witness :
  Forall still_running [status_response "running"] /\
  answers (status_response "error") "Error" /\
  exists w',
    wait_for_job "job" ∅ 10
      {| replies := [status_response "running"] ++ [status_response "error"];
         clock := 0 :: [5] ++ []; trace := [] |} =
    Raise (AssertionError (Job_failed "Error")) w' /\
    replies w' = [] /\ clock w' = [].
Proof.
  assert (Forall still_running [status_response "running"]) as H1.
  { constructor; [|constructor]. right. split; vm_compute; reflexivity. }
  assert (answers (status_response "error") "Error") as H2.
  { split; vm_compute; reflexivity. }
  split; [exact H1|]. split; [exact H2|].
  destruct (job_failure_is_raised "job" ∅ 10) as (_ & H & _).
  apply (H [status_response "running"] (status_response "error") 0 [5] [] [] []
           H1 H2 eq_refl).
  constructor; [lia|constructor].
Defined.

(** C4, as stated, fails: the run reaches Done and the value handed back
    is [None], not the status. *)
Lemma wait_for_job_returns_no_status :
  answers (status_response "Done") "Done" /\
  wait_for_job "job" ∅ 1800
    {| replies := [status_response "Done"]; clock := [0]; trace := [] |} =
  Ok PyNone
    {| replies := []; clock := [];
       trace := first_events "job" ∅ (status_response "Done") "Done"
                ++ [Print (job_status_line "Done")] |} /\
  forall w', wait_for_job "job" ∅ 1800
               {| replies := [status_response "Done"]; clock := [0];
                  trace := [] |} <> Ok (PyStr "Done") w'.
Proof.
  split; [split; vm_compute; reflexivity|].
  assert (wait_for_job "job" ∅ 1800
            {| replies := [status_response "Done"]; clock := [0]; trace := [] |} =
          Ok PyNone
            {| replies := []; clock := [];
               trace := first_events "job" ∅ (status_response "Done") "Done"
                        ++ [Print (job_status_line "Done")] |}) as H
    by (vm_compute; reflexivity).
  split; [exact H|]. intros w'. rewrite H. discriminate.
Qed.

(** C4, amended: whenever [wait_for_job] returns, the value is [None]; the
    status is only printed: the last thing the function does is print
    "Job status: " with the title-cased status of the last response it
    received. *)
Theorem wait_for_job_returns_none (endpoint : string) (hd : gmap string string)
    (timeout : Z) (w : world) (v : pyvalue) (w' : world) :
  wait_for_job endpoint hd timeout w = Ok v w' ->
  v = PyNone /\
  exists (r : response) (status : string),
    last_answer (trace w') = Some r /\
    observed r = Some status /\
    last (trace w') = Some (Print (job_status_line status)).
Proof.
  unfold wait_for_job. run. repeat (split_match; run);
    intros H; try discriminate.
  injection H as <- <-. split; [reflexivity|].
  match goal with
  | E : wait_loop _ _ _ _ _ _ _ = Ok ?status _ |- _ =>
      apply wait_loop_returns in E as (r' & Hr' & Hobs); [exists r', status|]
  end.
  - simpl. rewrite last_answer_app, last_snoc. simpl.
    rewrite Hr'. auto.
  - simpl. rewrite !last_answer_app. simpl.
    eexists. split; [reflexivity|]. unfold observed.
    match goal with
    | E : json _ !! "status" = Some _ |- _ => rewrite E
    end. reflexivity.
Qed.

Lemma wait_for_job_returns_none_witness :
  wait_for_job "job" ∅ 10
    {| replies := [status_response "running"; status_response "done"];
       clock := [0; 5]; trace := [] |} =
  Ok PyNone
    {| replies := []; clock := [];
       trace := first_events "job" ∅ (status_response "running") "Running"
                ++ poll_events "job" ∅ "Running" (status_response "done") "Done"
                ++ [Print (job_status_line "Done")] |} /\
  PyNone = PyNone /\
  exists (r : response) (status : string),
    last_answer
      (first_events "job" ∅ (status_response "running") "Running"
       ++ poll_events "job" ∅ "Running" (status_response "done") "Done"
       ++ [Print (job_status_line "Done")]) = Some r /\
    observed r = Some status /\
    last (first_events "job" ∅ (status_response "running") "Running"
          ++ poll_events "job" ∅ "Running" (status_response "done") "Done"
          ++ [Print (job_status_line "Done")]) =
      Some (Print (job_status_line status)).
Proof.
  assert (wait_for_job "job" ∅ 10
            {| replies := [status_response "running"; status_response "done"];
               clock := [0; 5]; trace := [] |} =
          Ok PyNone
            {| replies := []; clock := [];
               trace := first_events "job" ∅ (status_response "running") "Running"
                        ++ poll_events "job" ∅ "Running" (status_response "done") "Done"
                        ++ [Print (job_status_line "Done")] |}) as H
    by (vm_compute; reflexivity).
  split; [exact H|].
  exact (wait_for_job_returns_none "job" ∅ 10 _ _ _ H).
Defined.

(** What follows a first step is appended to what the step did. *)
Lemma emits_after {A B} (P : event -> Prop) (m : M A) (k : A -> M B)
    (w : world) :
  (forall a, emits P (k a)) ->
  exists evs, trace (final (bind m k w)) = trace (final (m w)) ++ evs.
Proof.
  intros Hk. unfold bind. destruct (m w) as [a w1|e w1|w1]; simpl.
  - destruct (Hk a w1) as (evs & Htr & _). eauto.
  - exists []. rewrite app_nil_r. reflexivity.
  - exists []. rewrite app_nil_r. reflexivity.
Qed.

(** A turn entered with Pending or Running sleeps and sends a request
    before anything else, whatever the clock and the timeout. *)
Lemma wait_loop_first_turn (endpoint : string) (hd : gmap string string)
    (timeout start_time : Z) (fuel : nat) (status : string) (w : world) :
  not_in_pending_running status = false ->
  exists evs,
    trace (final (wait_loop (S fuel) endpoint hd timeout start_time status w)) =
    trace w ++ [Sleep 5; Call (get_request endpoint hd) (head (replies w))]
            ++ evs.
Proof.
  intros Hin. rewrite wait_loop_unfold, Hin.
  match goal with
  | |- context [bind (time_sleep 5) (fun _ => bind ?m ?k) w] =>
      change (bind (time_sleep 5) (fun _ => bind m k) w)
        with (bind m k (log (Sleep 5) w));
      destruct (emits_after (carries hd) m k (log (Sleep 5) w)) as (evs & ->)
  end.
  - intros response. unfold print.
    repeat first [apply wait_loop_emits | emits_step].
  - exists evs. unfold requests_get, send. simpl.
    destruct (replies w); simpl; rewrite <- !app_assoc; reflexivity.
Qed.

(** C10: when the first response shows a status outside Pending and
    Running, [wait_for_job] ends at once, with one request and no sleep:
    normally for Done, with the failure assertion otherwise, whatever the
    timeout.  When it shows Pending or Running, a sleep of 5 seconds and a
    second request follow in every run, whatever the timeout. *)
Theorem first_poll_decides (endpoint : string) (hd : gmap string string)
    (timeout : Z) (r : response) (rest : list response) (t0 : Z)
    (ts : list Z) (tr : list event) (status : string) :
  answers r status ->
  (not_in_pending_running status = true ->
   wait_for_job endpoint hd timeout
     {| replies := r :: rest; clock := t0 :: ts; trace := tr |} =
   if String.eqb status "Done"
   then Ok PyNone
          {| replies := rest; clock := ts;
             trace := tr ++ first_events endpoint hd r status
                         ++ [Print (job_status_line status)] |}
   else Raise (AssertionError (Job_failed status))
          {| replies := rest; clock := ts;
             trace := tr ++ first_events endpoint hd r status |}) /\
  (not_in_pending_running status = false ->
   exists evs,
     trace (final (wait_for_job endpoint hd timeout
                     {| replies := r :: rest; clock := t0 :: ts;
                        trace := tr |})) =
     tr ++ first_events endpoint hd r status
        ++ [Sleep 5; Call (get_request endpoint hd) (head rest)] ++ evs).
Proof.
  intros Hr. rewrite (wait_for_job_enter _ _ _ _ _ _ _ _ _ Hr). split.
  - intros Hnot. rewrite wait_loop_exit by assumption.
    destruct (String.eqb status "Done"); simpl; [|reflexivity].
    unfold log. simpl. rewrite <- app_assoc. reflexivity.
  - intros Hin.
    destruct (wait_loop_first_turn endpoint hd timeout t0 (length rest) status
                {| replies := rest; clock := ts;
                   trace := tr ++ first_events endpoint hd r status |} Hin)
      as (evs & Htr).
    simpl in Htr.
    destruct (wait_loop (S (length rest)) endpoint hd timeout t0 status _)
      as [s w'|e w'|w']; simpl in *.
    + exists (evs ++ [Print (job_status_line s)]).
      rewrite Htr, <- !app_assoc. reflexivity.
    + exists evs. rewrite Htr, <- !app_assoc. reflexivity.
    + exists evs. rewrite Htr, <- !app_assoc. reflexivity.
Qed.

Lemma first_poll_decides_witness :
  answers (status_response "error") "Error" /\
  (not_in_pending_running "Error" = true ->
   wait_for_job "job" ∅ 0
     {| replies := [status_response "error"]; clock := [7]; trace := [] |} =
   if String.eqb "Error" "Done"
   then Ok PyNone
          {| replies := []; clock := [];
             trace := [] ++ first_events "job" ∅ (status_response "error") "Error"
                         ++ [Print (job_status_line "Error")] |}
   else Raise (AssertionError (Job_failed "Error"))
          {| replies := []; clock := [];
             trace := [] ++ first_events "job" ∅ (status_response "error")
                              "Error" |}).
Proof.
  assert (answers (status_response "error") "Error") as H
    by (split; vm_compute; reflexivity).
  split; [exact H|].
  exact (proj1 (first_poll_decides "job" ∅ 0 (status_response "error") [] 7 []
                  [] "Error" H)).
Defined.

(** ** The gates of the download and clean-up cells *)

Lemma bind_send_cons {B} (rq : request) (k : response -> M B) (r : response)
    (rest : list response) (cl : list Z) (tr : list event) :
  bind (send rq) k {| replies := r :: rest; clock := cl; trace := tr |} =
  k r {| replies := rest; clock := cl; trace := tr ++ [Call rq (Some r)] |}.
Proof. reflexivity. Qed.

Lemma bind_send_nil {B} (rq : request) (k : response -> M B)
    (cl : list Z) (tr : list event) :
  bind (send rq) k {| replies := []; clock := cl; trace := tr |} =
  Stuck {| replies := []; clock := cl; trace := tr ++ [Call rq None] |}.
Proof. reflexivity. Qed.

Lemma bind_getitem {B} (d : gmap string string) (key : string)
    (k : string -> M B) (w : world) :
  bind (getitem d key) k w =
  match d !! key with
  | Some v => k v w
  | None => Raise (KeyError key) w
  end.
Proof. unfold bind, getitem. destruct (d !! key); reflexivity. Qed.

Lemma send_trace (rq : request) (w : world) :
  trace (final (send rq w)) = trace w ++ [Call rq (head (replies w))].
Proof. unfold send. destruct (replies w); reflexivity. Qed.

Lemma prefix_refl (tr : list event) : exists pre, tr = tr ++ pre.
Proof. exists []. symmetry. apply app_nil_r. Qed.

Lemma prefix_snoc (tr l l' : list event) :
  (exists pre, l = tr ++ pre) -> exists pre, l ++ l' = tr ++ pre.
Proof. intros [pre ->]. exists (pre ++ l'). symmetry. apply app_assoc. Qed.

(** C6: in both download cells, the one of the segmentation notebook and
    the one for the inference results of the Auto3DSeg notebook, the
    download request goes out only when the status check of the cell, the
    request just before it, reports exactly Done; it is then the next
    request.  On any other status the cell ends after the check and sends
    nothing more. *)
Theorem download_only_when_done (base_url : string) (hd : gmap string string)
    (experiment_id job_id : string) (r : response) (rest : list response)
    (cl : list Z) (tr : list event) :
  let endpoint := job_endpoint base_url experiment_id job_id in
  let w := {| replies := r :: rest; clock := cl; trace := tr |} in
  let checked := {| replies := rest; clock := cl;
                    trace := tr ++ [Call (get_request endpoint hd) (Some r)] |} in
  let results :=
    Auto3DSegResults.download_results base_url hd experiment_id job_id in
  ((json r !! "status" = Some "Done" ->
    exists evs,
      trace (final (download base_url hd experiment_id job_id w)) =
      trace checked
        ++ Call (get_request (endpoint +:+ ":download") hd) (head rest) :: evs) /\
   (forall status,
       json r !! "status" = Some status -> status <> "Done" ->
       download base_url hd experiment_id job_id w = Ok tt checked) /\
   (json r !! "status" = None ->
    download base_url hd experiment_id job_id w =
      Raise (KeyError "status") checked)) /\
  ((json r !! "status" = Some "Done" ->
    exists evs,
      trace (ended (results w)) =
      trace checked
        ++ Call (get_request (endpoint +:+ ":download") hd) (head rest) :: evs) /\
   (forall status,
       json r !! "status" = Some status -> status <> "Done" ->
       results w = Returned tt checked) /\
   (json r !! "status" = None ->
    results w = Failed (Exn (KeyError "status")) checked)).
Proof.
  intros endpoint w checked results. subst w. split.
  - split; [|split]; unfold download, requests_get;
      rewrite bind_send_cons, bind_getitem;
      fold endpoint; fold (get_request endpoint hd); fold checked.
    + intros ->. rewrite String.eqb_refl. unfold print, write_file,
        requests_get_data.
      match goal with
      | |- context [bind (send ?rq) ?k checked] =>
          destruct (emits_after (carries hd) (send rq) k checked) as (evs & ->)
      end.
      * intros response. repeat emits_step.
      * rewrite send_trace. exists evs. rewrite <- app_assoc. reflexivity.
    + intros status -> Hne. apply String.eqb_neq in Hne. rewrite Hne.
      reflexivity.
    + intros ->. reflexivity.
  - subst results checked endpoint.
    unfold Auto3DSegResults.download_results, job_endpoint.
    split; [|split].
    + intros Hst. cells. rewrite Hst. cells.
      destruct rest as [|r2 rest]; cells.
      * exists []. reflexivity.
      * repeat (split_match; cells); cbn [ended trace head];
          match goal with
          | |- exists evs, ?L = ?R ++ ?c :: evs =>
              destruct (prefix_snoc (R ++ [c]) L [] (ltac:(
                          repeat first [apply prefix_refl
                                       |apply prefix_snoc])))
                as [mid Hmid];
              rewrite app_nil_r in Hmid; exists mid; rewrite Hmid;
              rewrite <- app_assoc; reflexivity
          end.
    + intros status Hst Hne. apply String.eqb_neq in Hne.
      cells. rewrite Hst. cells. rewrite Hne. reflexivity.
    + intros Hst. cells. rewrite Hst. cells. reflexivity.
Qed.

Lemma download_only_when_done_witness :
  json (status_response "Running") !! "status" = Some "Running" /\
  "Running" <> "Done" /\
  download "base" ∅ "e1" "j1"
    {| replies := [status_response "Running"]; clock := []; trace := [] |} =
  Ok tt {| replies := []; clock := [];
           trace := [] ++ [Call (get_request (job_endpoint "base" "e1" "j1") ∅)
                             (Some (status_response "Running"))] |} /\
  Auto3DSegResults.download_results "base" ∅ "e1" "j1"
    {| replies := [status_response "Running"]; clock := []; trace := [] |} =
  Returned tt
    {| replies := []; clock := [];
       trace := [] ++ [Call (get_request (job_endpoint "base" "e1" "j1") ∅)
                         (Some (status_response "Running"))] |}.
Proof.
  assert (json (status_response "Running") !! "status" = Some "Running") as H
    by (vm_compute; reflexivity).
  assert ("Running" <> "Done") as H' by discriminate.
  split; [exact H|]. split; [exact H'|].
  destruct (download_only_when_done "base" ∅ "e1" "j1"
              (status_response "Running") [] [] [])
    as [[_ [Hseg _]] [_ [Hres _]]].
  split; [exact (Hseg "Running" H H')|exact (Hres "Running" H H')].
Defined.

Lemma experiments_url_neq_datasets (base_url experiment_id dataset_id : string) :
  base_url +:+ "/experiments/" +:+ experiment_id <>
  base_url +:+ "/datasets/" +:+ dataset_id.
Proof.
  intros H. apply (inj (String.app base_url)) in H.
  vm_compute in H. discriminate.
Qed.

(** Find the place of an event in a list given by its elements. *)
Ltac locate_event H pre :=
  repeat (destruct pre as [|? pre];
          [ simpl in H; try discriminate H
          | simpl in H; injection H as <- H ]);
  try (destruct pre; discriminate H).

Ltac find_in := simpl; repeat first [left; reflexivity | right].

(** C7: in the clean-up, run in notebook order, the experiment is deleted
    only after the status check showed Done or the cancel request came
    back with 200, and a dataset is deleted only after the deletion of the
    experiment came back with 200. *)
Theorem cleanup_order (base_url : string) (hd : gmap string string)
    (experiment_id job_id train_dataset_id val_dataset_id : string)
    (w : world) (evs : list event) :
  trace (final (cleanup base_url hd experiment_id job_id
                  train_dataset_id val_dataset_id w)) = trace w ++ evs ->
  let job_url := job_endpoint base_url experiment_id job_id in
  let experiment_url := base_url +:+ "/experiments/" +:+ experiment_id in
  (forall pre answer post,
      evs = pre ++ Call (delete_request experiment_url hd) answer :: post ->
      exists r,
        (In (Call (get_request job_url hd) (Some r)) pre /\
         json r !! "status" = Some "Done") \/
        (In (Call (post_request (job_url +:+ ":cancel") hd) (Some r)) pre /\
         status_code r = 200)) /\
  (forall dataset_id pre answer post,
      dataset_id = train_dataset_id \/ dataset_id = val_dataset_id ->
      evs = pre ++ Call (delete_request
                           (base_url +:+ "/datasets/" +:+ dataset_id) hd)
                        answer :: post ->
      exists r,
        In (Call (delete_request experiment_url hd) (Some r)) pre /\
        status_code r = 200).
Proof.
  intros Htr job_url experiment_url.
  destruct w as [rs cl tr]. revert Htr.
  unfold cleanup, delete_experiment, delete_datasets.
  fold job_url. fold experiment_url.
  run. repeat (split_match; run); intros Htr;
    apply app_inv_head in Htr || (rewrite <- ?app_assoc in Htr;
                                  apply app_inv_head in Htr);
    subst evs.
  all: repeat match goal with
             | H : negb _ = false |- _ => apply negb_false_iff in H
             | H : negb _ = true |- _ => apply negb_true_iff in H
             | H : String.eqb _ _ = true |- _ => apply String.eqb_eq in H; subst
             | H : (_ =? _)%Z = true |- _ => apply Z.eqb_eq in H
             end.
  all: subst job_url experiment_url;
    unfold delete_request, get_request, post_request;
    split; [intros pre answer post H|intros dataset_id pre answer post _ H];
    simpl in H; locate_event H pre.
  all: injection H as Hev _; inversion Hev; clear Hev.
  all: try match goal with
           | Hurl : ?b +:+ "/experiments/" +:+ _ = ?b +:+ "/datasets/" +:+ _
             |- _ => exfalso; exact (experiments_url_neq_datasets _ _ _ Hurl)
           | Hurl : ?b +:+ "/datasets/" +:+ _ = ?b +:+ "/experiments/" +:+ _
             |- _ => exfalso;
                     exact (experiments_url_neq_datasets _ _ _ (eq_sym Hurl))
           end.
  all: eexists;
    first [ solve [left; split; [find_in|eassumption]]
          | solve [right; split; [find_in|eassumption]]
          | solve [split; [find_in|eassumption]] ].
Qed.

Lemma cleanup_order_witness :
  let w := {| replies := [status_response "Running"; ok_response; ok_response;
                          ok_response; ok_response];
              clock := []; trace := [] |} in
  let job_url := job_endpoint "base" "e1" "j1" in
  let cancelled :=
    [Call (get_request job_url ∅) (Some (status_response "Running"));
     Call (post_request (job_url +:+ ":cancel") ∅) (Some ok_response);
     Print (repr_response ok_response +:+ nl)] in
  let deleted :=
    [Call (delete_request ("base" +:+ "/experiments/" +:+ "e1") ∅)
       (Some ok_response);
     Print (repr_response ok_response +:+ nl)] in
  let datasets :=
    [Print (repr_response ok_response +:+ nl);
     Call (delete_request ("base" +:+ "/datasets/" +:+ "d2") ∅)
       (Some ok_response);
     Print (repr_response ok_response +:+ nl)] in
  let first_dataset :=
    Call (delete_request ("base" +:+ "/datasets/" +:+ "d1") ∅)
      (Some ok_response) in
  trace (final (cleanup "base" ∅ "e1" "j1" "d1" "d2" w)) =
    trace w ++ (cancelled ++ deleted) ++ first_dataset :: datasets /\
  (exists r,
      (In (Call (get_request job_url ∅) (Some r)) cancelled /\
       json r !! "status" = Some "Done") \/
      (In (Call (post_request (job_url +:+ ":cancel") ∅) (Some r)) cancelled /\
       status_code r = 200)) /\
  (exists r,
      In (Call (delete_request ("base" +:+ "/experiments/" +:+ "e1") ∅)
            (Some r)) (cancelled ++ deleted) /\
      status_code r = 200).
Proof.
  intros w job_url cancelled deleted datasets first_dataset.
  assert (trace (final (cleanup "base" ∅ "e1" "j1" "d1" "d2" w)) =
          trace w ++ (cancelled ++ deleted) ++ first_dataset :: datasets) as H
    by (vm_compute; reflexivity).
  split; [exact H|].
  destruct (cleanup_order "base" ∅ "e1" "j1" "d1" "d2" w _ H) as [H1 H2].
  split.
  - apply (H1 cancelled (Some ok_response)
             (Print (repr_response ok_response +:+ nl)
                :: first_dataset :: datasets)).
    vm_compute. reflexivity.
  - apply (H2 "d1" (cancelled ++ deleted) (Some ok_response) datasets).
    + left. reflexivity.
    + reflexivity.
Defined.

(** ** The login cell and the session after it *)

Lemma login_accepts_dec (r : response) : login_accepts r \/ ~ login_accepts r.
Proof.
  unfold login_accepts.
  destruct (Z.eq_dec (status_code r) 201) as [H|H]; [|tauto].
  destruct (json r !! "user_id"); [|right; intros (_ & [? ?] & _); discriminate].
  destruct (json r !! "token"); [|right; intros (_ & _ & [? ?]); discriminate].
  left. eauto.
Qed.

Lemma login_run (host_url ngc_api_key : string) (r : response)
    (rest : list response) (cl : list Z) (tr : list event) :
  let w := {| replies := r :: rest; clock := cl; trace := tr |} in
  (forall uid tok,
      status_code r = 201 ->
      json r !! "user_id" = Some uid -> json r !! "token" = Some tok ->
      exists prints,
        Forall printed prints /\
        login host_url ngc_api_key w =
        Ok {| user_id := uid; token := tok;
              base_url := host_url +:+ "/api/v1/users/" +:+ uid;
              headers := bearer tok |}
           {| replies := rest; clock := cl;
              trace := tr ++ Call (login_request host_url ngc_api_key) (Some r)
                          :: prints |}) /\
  (~ login_accepts r ->
   exists msg prints,
     Forall printed prints /\
     login host_url ngc_api_key w =
     Raise (AssertionError msg)
       {| replies := rest; clock := cl;
          trace := tr ++ Call (login_request host_url ngc_api_key) (Some r)
                      :: prints |}).
Proof.
  intros w. subst w. unfold login_accepts, login_request, bearer. split.
  - intros uid tok H201 Huid Htok. unfold login, has_key. run.
    rewrite H201. run. rewrite Huid. run. rewrite Htok. run.
    rewrite <- !app_assoc. simpl.
    eexists. split; [|reflexivity].
    repeat constructor; eexists; reflexivity.
  - intros Hno. unfold login, has_key. run.
    destruct (status_code r =? 201)%Z eqn:E201; run.
    + apply Z.eqb_eq in E201.
      destruct (json r !! "user_id") as [uid|] eqn:Huid; run.
      * destruct (json r !! "token") as [tok|] eqn:Htok; run.
        -- exfalso. apply Hno.
           repeat split; try assumption;
             eexists; first [reflexivity|eassumption].
        -- rewrite <- !app_assoc. simpl. eexists _, _.
           split; [|reflexivity]. repeat constructor; eexists; reflexivity.
      * rewrite <- !app_assoc. simpl. eexists _, _.
        split; [|reflexivity]. repeat constructor; eexists; reflexivity.
    + rewrite <- !app_assoc. simpl. eexists _, _.
      split; [|reflexivity]. repeat constructor; eexists; reflexivity.
Qed.

Lemma after_login_emits
    (repr_dict dumps_indent : gmap string string -> string)
    (json_list : response -> list Pretrained.experiment)
    (json_str : response -> string) (json_text : jvalue -> string)
    (s : session)
    (access_id access_secret train_manifest_url val_manifest_url : string) :
  emits (carries (headers s))
        (after_login repr_dict dumps_indent json_list json_str json_text s
                     access_id access_secret train_manifest_url
                     val_manifest_url).
Proof.
  unfold after_login.
  apply emits_bind; [apply create_datasets_emits|intros datasets].
  apply emits_bind; [apply list_base_experiments_emits|intros pretrained].
  apply emits_bind; [apply create_experiment_emits|intros experiment_id].
  apply emits_bind; [apply run_train_job_emits|intros job_id].
  apply emits_bind; [apply monitor_emits|intros _].
  apply emits_bind; [apply download_emits|intros _].
  apply cleanup_emits.
Qed.

(** C8: the login cell succeeds exactly when the response has status 201
    and a body with [user_id] and [token].  It then binds both, and every
    request of the cells after it (the creation of the two datasets, the
    listing of the base experiments, the creation of the experiment and
    of the train job, the monitoring, the download and the clean-up)
    carries [Authorization: Bearer token].  Otherwise it raises an
    assertion, and the run ends there whatever cells come after: the
    login request is the only request sent. *)
Theorem login_decides_the_session
    (repr_dict dumps_indent : gmap string string -> string)
    (json_list : response -> list Pretrained.experiment)
    (json_str : response -> string) (json_text : jvalue -> string)
    (host_url ngc_api_key : string)
    (access_id access_secret train_manifest_url val_manifest_url : string)
    (r : response) (rest : list response) (cl : list Z) (tr : list event) :
  let w := {| replies := r :: rest; clock := cl; trace := tr |} in
  let sent := Call (login_request host_url ngc_api_key) (Some r) in
  let run := whole_notebook repr_dict dumps_indent json_list json_str
                            json_text host_url ngc_api_key access_id
                            access_secret train_manifest_url
                            val_manifest_url in
  ((exists s w', login host_url ngc_api_key w = Ok s w') <-> login_accepts r) /\
  (forall uid tok,
      status_code r = 201 ->
      json r !! "user_id" = Some uid -> json r !! "token" = Some tok ->
      exists prints evs,
        login host_url ngc_api_key w =
          Ok {| user_id := uid; token := tok;
                base_url := host_url +:+ "/api/v1/users/" +:+ uid;
                headers := bearer tok |}
             {| replies := rest; clock := cl;
                trace := tr ++ sent :: prints |} /\
        Forall printed prints /\
        trace (final (run w)) = tr ++ sent :: prints ++ evs /\
        Forall (carries (bearer tok)) evs) /\
  (~ login_accepts r ->
   exists msg prints,
     login host_url ngc_api_key w =
       Raise (AssertionError msg)
         {| replies := rest; clock := cl; trace := tr ++ sent :: prints |} /\
     Forall printed prints /\
     run w =
       Raise (AssertionError msg)
         {| replies := rest; clock := cl; trace := tr ++ sent :: prints |} /\
     forall (B : Type) (cells : session -> M B),
       (let* s := login host_url ngc_api_key in cells s) w =
       Raise (AssertionError msg)
         {| replies := rest; clock := cl; trace := tr ++ sent :: prints |}).
Proof.
  intros w sent run.
  destruct (login_run host_url ngc_api_key r rest cl tr) as [Hok Hno].
  fold w in Hok, Hno. fold sent in Hok, Hno.
  split; [|split].
  - split.
    + intros (s & w' & Hs).
      destruct (login_accepts_dec r) as [Hacc|Hacc]; [exact Hacc|].
      destruct (Hno Hacc) as (msg & prints & _ & Hraise).
      rewrite Hraise in Hs. discriminate.
    + intros (H201 & [uid Huid] & [tok Htok]).
      destruct (Hok uid tok H201 Huid Htok) as (prints & _ & Hlogin). eauto.
  - intros uid tok H201 Huid Htok.
    destruct (Hok uid tok H201 Huid Htok) as (prints & Hprints & Hlogin).
    match type of Hlogin with
    | _ = Ok ?s ?w' =>
        destruct (after_login_emits repr_dict dumps_indent json_list json_str
                    json_text s access_id access_secret train_manifest_url
                    val_manifest_url w') as (evs & Htr & Hevs)
    end.
    exists prints, evs. split; [exact Hlogin|]. split; [exact Hprints|].
    split; [|exact Hevs].
    unfold run, whole_notebook, bind at 1. rewrite Hlogin.
    rewrite Htr. cbn [trace]. rewrite <- app_assoc. reflexivity.
  - intros Hacc. destruct (Hno Hacc) as (msg & prints & Hprints & Hraise).
    exists msg, prints. split; [exact Hraise|]. split; [exact Hprints|].
    split.
    + unfold run, whole_notebook, bind at 1. rewrite Hraise. reflexivity.
    + intros B cells. unfold bind. rewrite Hraise. reflexivity.
Qed.

Lemma login_decides_the_session_witness :
  let r := {| status_code := 201;
              json := {[ "user_id" := "u1"; "token" := "t1" ]};
              content := "" |} in
  let created (i : string) :=
    {| status_code := 201;
       json := {[ "id" := i; "network_arch" := "monai_vista3d" ]};
       content := "" |} in
  let rest := [created "d1"; created "d2"; ok_response; created "e1";
               created "j1"; ok_response; status_response "Done";
               status_response "Done"; ok_response; ok_response;
               status_response "Done"; ok_response; ok_response;
               ok_response] in
  let w := {| replies := r :: rest; clock := [0]; trace := [] |} in
  let json_list (_ : response) :=
    [{| Pretrained.id := "v1"; Pretrained.network_arch := "monai_vista3d";
        Pretrained.base_experiment := [] |};
     {| Pretrained.id := "a1"; Pretrained.network_arch := "monai_annotation";
        Pretrained.base_experiment := [] |}] in
  let run := whole_notebook (fun _ => "{}") (fun _ => "{}") json_list
                            (fun _ => "j1") (fun _ => "[]")
                            "host" "key" "id" "secret" "train" "val" in
  run w = Ok tt {| replies := []; clock := []; trace := trace (final (run w)) |} /\
  status_code r = 201 /\
  json r !! "user_id" = Some "u1" /\ json r !! "token" = Some "t1" /\
  exists prints evs,
    login "host" "key" w =
      Ok {| user_id := "u1"; token := "t1";
            base_url := "host" +:+ "/api/v1/users/" +:+ "u1";
            headers := bearer "t1" |}
         {| replies := rest; clock := [0];
            trace := [] ++ Call (login_request "host" "key") (Some r)
                        :: prints |} /\
    Forall printed prints /\
    trace (final (run w)) =
      [] ++ Call (login_request "host" "key") (Some r) :: prints ++ evs /\
    Forall (carries (bearer "t1")) evs.
Proof.
  intros r created rest w json_list run.
  assert (status_code r = 201) as H1 by reflexivity.
  assert (json r !! "user_id" = Some "u1") as H2 by (vm_compute; reflexivity).
  assert (json r !! "token" = Some "t1") as H3 by (vm_compute; reflexivity).
  split; [vm_compute; reflexivity|].
  split; [exact H1|]. split; [exact H2|]. split; [exact H3|].
  exact (proj1 (proj2 (login_decides_the_session
                         (fun _ => "{}") (fun _ => "{}") json_list
                         (fun _ => "j1") (fun _ => "[]")
                         "host" "key" "id" "secret" "train" "val"
                         r rest [0] []))
           "u1" "t1" H1 H2 H3).
Defined.

(** ** Letter case of the status *)






(** C5: the poller title-cases the status, the two gates compare the raw
    string with "Done".  On the wire status "done", which differs from
    "Done" only in case, the poller reports Done, the download cell skips
    the download and the clean-up cell cancels the job; on "Done" the
    download is made and nothing is cancelled. *)
Theorem gates_compare_the_raw_status :
  let job_url := job_endpoint "base" "e1" "j1" in
  lower "done" = lower "Done" /\
  (forall wire, wire = "done" \/ wire = "Done" ->
     wait_for_job job_url ∅ 1800
       {| replies := [status_response wire]; clock := [0]; trace := [] |} =
     Ok PyNone
       {| replies := []; clock := [];
          trace := first_events job_url ∅ (status_response wire) "Done"
                   ++ [Print (job_status_line "Done")] |}) /\
  download "base" ∅ "e1" "j1"
    {| replies := [status_response "done"; ok_response; ok_response];
       clock := []; trace := [] |} =
  Ok tt
    {| replies := [ok_response; ok_response]; clock := [];
       trace := [Call (get_request job_url ∅) (Some (status_response "done"))] |} /\
  trace (final (download "base" ∅ "e1" "j1"
    {| replies := [status_response "Done"; ok_response; ok_response];
       clock := []; trace := [] |})) =
  [Call (get_request job_url ∅) (Some (status_response "Done"));
   Call (get_request (job_url +:+ ":download") ∅) (Some ok_response);
   Save "j1.tar.gz" "";
   Print ("Bundle training results are downloaded as j1.tar.gz" +:+ nl);
   Call {| rq_method := GET; rq_url := job_url +:+ ":download";
           rq_headers := ∅;
           rq_data := Some {[ "export_type" := "monai_bundle" ]} |}
        (Some ok_response);
   Save "j1.tar.gz" "";
   Print ("Downloaded!" +:+ nl)] /\
  trace (final (delete_experiment "base" ∅ "e1" "j1"
    {| replies := [status_response "done"; ok_response; ok_response];
       clock := []; trace := [] |})) =
  [Call (get_request job_url ∅) (Some (status_response "done"));
   Call (post_request (job_url +:+ ":cancel") ∅) (Some ok_response);
   Print ("<Response [200]>" +:+ nl);
   Call (delete_request "base/experiments/e1" ∅) (Some ok_response);
   Print ("<Response [200]>" +:+ nl)] /\
  trace (final (delete_experiment "base" ∅ "e1" "j1"
    {| replies := [status_response "Done"; ok_response; ok_response];
       clock := []; trace := [] |})) =
  [Call (get_request job_url ∅) (Some (status_response "Done"));
   Call (delete_request "base/experiments/e1" ∅) (Some ok_response);
   Print ("<Response [200]>" +:+ nl)].
Proof.
  intros job_url. subst job_url.
  split; [reflexivity|].
  split; [intros wire [->| ->]; vm_compute; reflexivity|].
  repeat split; vm_compute; reflexivity.
Qed.

(** ** The selection of the base experiment *)

Module Auto3DSegFacts.
Import Auto3DSeg.

Section SelectionCorrect.

Context {V : Type} (lt : V -> V -> bool).

(** Python's [<] on the version values is a strict order whose
    complement is transitive, as on numbers and on strings. *)
Hypothesis lt_asym : forall a b, lt a b = true -> lt b a = false.
Hypothesis le_trans :
  forall a b c, lt b a = false -> lt c b = false -> lt c a = false.

Local Abbreviation exp := (@experiment V).

Lemma insert_sorted_In (key : exp -> V) (x y : exp) (l : list exp) :
  In y (insert_sorted lt key x l) <-> y = x \/ In y l.
Proof.
  induction l as [|z l IH]; simpl.
  - intuition.
  - destruct (lt (key x) (key z)); simpl; [intuition|].
    rewrite IH. intuition.
Qed.

Lemma insert_sorted_ascending (key : exp -> V) (x : exp) (l : list exp) :
  ascending lt key l -> ascending lt key (insert_sorted lt key x l).
Proof.
  induction l as [|z l IH]; simpl.
  - intros _. split; [intros y []|exact I].
  - intros [Hz Hl]. destruct (lt (key x) (key z)) eqn:E; simpl.
    + split; [|split; assumption].
      intros y [<-|Hy].
      * apply lt_asym. exact E.
      * apply (le_trans _ (key z)); [apply lt_asym; exact E|apply Hz, Hy].
    + split; [|apply IH, Hl].
      intros y Hy. apply insert_sorted_In in Hy as [->|Hy]; [exact E|].
      apply Hz, Hy.
Qed.

Lemma sorted_spec (key : exp -> V) (l : list exp) :
  forall acc,
    ascending lt key acc ->
    let out := fold_left (fun acc x => insert_sorted lt key x acc) l acc in
    ascending lt key out /\ (forall y, In y out <-> In y l \/ In y acc).
Proof.
  induction l as [|x l IH]; intros acc Hacc; simpl.
  - split; [exact Hacc|]. intuition.
  - destruct (IH (insert_sorted lt key x acc)
                (insert_sorted_ascending key x acc Hacc)) as [Hasc Hin].
    split; [exact Hasc|].
    intros y. rewrite Hin, insert_sorted_In. intuition.
Qed.

Lemma last_is_greatest (key : exp -> V) (l : list exp) (m : exp) :
  ascending lt key l -> last l = Some m ->
  In m l /\ forall q, In q l -> lt (key m) (key q) = false.
Proof.
  induction l as [|x l IH]; [discriminate|].
  intros [Hx Hl] Hlast. destruct l as [|y l].
  - injection Hlast as <-. split; [left; reflexivity|].
    intros q [<-|[]].
    destruct (lt (key x) (key x)) eqn:E; [|reflexivity].
    rewrite (lt_asym _ _ E) in E. discriminate.
  - destruct (IH Hl Hlast) as [Hm Hmax].
    split; [right; exact Hm|].
    intros q [<-|Hq]; [apply Hx, Hm|apply Hmax, Hq].
Qed.

(** C9: when no element of the listing has the architecture
    [monai_automl] and the name [MONAI Auto3dSeg], the cell fails with
    its assertion; otherwise [base_experiment_id] is the id of such an
    element of the listing, and no such element has a higher version. *)
Theorem highest_version_is_selected (res : list exp) :
  (automl_base_exps res = [] ->
   base_experiment_id lt res =
     inl (AssertionError No_base_experiment_found)) /\
  (automl_base_exps res <> [] ->
   exists p,
     base_experiment_id lt res = inr (id p) /\
     In p res /\
     network_arch p = "monai_automl" /\ name p = "MONAI Auto3dSeg" /\
     forall q, In q res ->
               network_arch q = "monai_automl" ->
               name q = "MONAI Auto3dSeg" ->
               lt (version p) (version q) = false).
Proof.
  unfold base_experiment_id, base_experiment. split.
  - intros ->. reflexivity.
  - intros Hne.
    destruct (automl_base_exps res) as [|x l] eqn:Hfilter; [congruence|].
    cbn [length Nat.ltb Nat.leb negb].
    destruct (sorted_spec version (x :: l) [] I) as [Hasc Hin].
    fold (sorted lt (x :: l) version) in Hasc, Hin.
    destruct (last (sorted lt (x :: l) version)) as [p|] eqn:Hlast.
    + destruct (last_is_greatest version _ p Hasc Hlast) as [Hp Hmax].
      exists p. split; [reflexivity|].
      assert (forall y, In y (sorted lt (x :: l) version) <->
                        In y res /\ is_automl_base y = true) as Hmem.
      { intros y. rewrite Hin, <- Hfilter. unfold automl_base_exps.
        rewrite List.filter_In. simpl. intuition. }
      apply Hmem in Hp as [Hres Hbase].
      unfold is_automl_base in Hbase.
      apply andb_true_iff in Hbase as [Ha Hn].
      apply String.eqb_eq in Ha, Hn.
      repeat split; try assumption.
      intros q Hq Hqa Hqn. apply Hmax, Hmem. split; [exact Hq|].
      unfold is_automl_base. rewrite Hqa, Hqn. reflexivity.
    + exfalso.
      assert (In x (sorted lt (x :: l) version)) as Hx
        by (apply Hin; left; left; reflexivity).
      destruct (sorted lt (x :: l) version) as [|z zs]; [destruct Hx|].
      clear - Hlast. revert z Hlast.
      induction zs as [|z' zs IH]; intros z Hlast; [discriminate|].
      apply (IH z' Hlast).
Qed.

End SelectionCorrect.

Lemma highest_version_is_selected_witness :
  (forall a b, Z.ltb a b = true -> Z.ltb b a = false) /\
  (forall a b c, Z.ltb b a = false -> Z.ltb c b = false -> Z.ltb c a = false) /\
  automl_base_exps listing <> [] /\
  exists p,
    base_experiment_id Z.ltb listing = inr (id p) /\
    In p listing /\
    network_arch p = "monai_automl" /\ name p = "MONAI Auto3dSeg" /\
    forall q, In q listing ->
              network_arch q = "monai_automl" ->
              name q = "MONAI Auto3dSeg" ->
              Z.ltb (version p) (version q) = false.
Proof.
  assert (forall a b, Z.ltb a b = true -> Z.ltb b a = false) as H1 by lia.
  assert (forall a b c, Z.ltb b a = false -> Z.ltb c b = false ->
                        Z.ltb c a = false) as H2 by lia.
  assert (automl_base_exps listing <> []) as H3 by discriminate.
  split; [exact H1|]. split; [exact H2|]. split; [exact H3|].
  exact (proj2 (highest_version_is_selected Z.ltb H1 H2 listing) H3).
Defined.

End Auto3DSegFacts.


(** * Further properties of the embedded code *)

(** ** The status as the poller reads it *)






(** ** Every run of the poller *)

Lemma paced_app (rq : request) (l2 : list event) :
  paced rq l2 ->
  forall (n : nat) (l1 : list event),
    (length l1 <= n)%nat -> paced rq l1 -> paced rq (l1 ++ l2).
Proof.
  intros H2. induction n as [|n IH]; intros l1 Hlen H1;
    destruct l1 as [|ev l1]; simpl in *; try lia; auto.
  destruct ev; try contradiction.
  - destruct l1 as [|ev2 l1]; [contradiction|].
    destruct ev2; try contradiction.
    destruct H1 as (Hs & Hrq & H1). repeat split; auto.
    apply IH; [simpl in Hlen; lia|exact H1].
  - apply IH; [lia|exact H1].
Qed.

Section EveryRun.

Variables (endpoint : string) (hd : gmap string string).
Variables (timeout start_time : Z).

Lemma wait_loop_paced (fuel : nat) :
  forall (status : string) (w : world),
    exists evs,
      trace (final (wait_loop fuel endpoint hd timeout start_time status w)) =
        trace w ++ evs /\
      paced (get_request endpoint hd) evs.
Proof.
  induction fuel as [|fuel IH]; intros status w.
  - exists []. rewrite wait_loop_O, app_nil_r. simpl. auto.
  - turn;
      try match goal with
          | |- context [wait_loop fuel _ _ _ _ ?st ?w1] =>
              destruct (IH st w1) as (evs' & -> & Hp); cbn [trace]
          end;
      rewrite <- ?app_assoc; eexists;
      (split; [first [reflexivity | symmetry; apply app_nil_r]|]);
      simpl; auto.
Qed.

Lemma wait_loop_raised_by (fuel : nat) :
  forall (status : string) (w : world) (e : exn) (w' : world),
    wait_loop fuel endpoint hd timeout start_time status w = Raise e w' ->
    (exists r, last_answer (trace w) = Some r /\ status_code r = 200 /\
               observed r = Some status) ->
    exists r, last_answer (trace w') = Some r /\ raised_by e r.
Proof.
  induction fuel as [|fuel IH]; intros status w e w'.
  - rewrite wait_loop_O. discriminate.
  - turn; intros H Hlast; try discriminate.
    all: try (eapply IH; [exact H|]; cbn [trace];
              rewrite !last_answer_app; simpl;
              eexists; split; [reflexivity|];
              split; [apply Z.eqb_eq; assumption|];
              unfold observed;
              match goal with
              | E : json _ !! "status" = Some _ |- _ => rewrite E
              end; simpl;
              repeat match goal with
                     | E : negb (String.eqb _ _) = false |- _ =>
                         apply negb_false_iff, String.eqb_eq in E;
                         rewrite E
                     end; reflexivity).
    all: injection H as <- <-; cbn [trace];
      rewrite ?last_answer_app; simpl.
    + destruct Hlast as (r & Hr & H200 & Hobs). exists r.
      split; [exact Hr|]. right. right. split; [exact H200|].
      exists status. split; [exact Hobs|].
      match goal with
      | E : not_in_pending_running _ = true |- _ =>
          apply not_in_pending_running_true in E; destruct E
      end.
      repeat split; try assumption.
      apply String.eqb_neq. assumption.
    + eexists. split; [reflexivity|]. right. left.
      split; [apply Z.eqb_eq; assumption|]. split; [assumption|reflexivity].
    + eexists. split; [reflexivity|]. left. split; [|reflexivity].
      apply Z.eqb_neq. assumption.
Qed.

End EveryRun.

(** X2: when the answers carry JSON objects whose [status], where there
    is one, is a string (the bodies a [response] holds), [wait_for_job]
    raises in three ways only, each decided by the last response it
    received: the status code is not 200 (assertion "Failed to get job
    status" with the body), the body has no [status] (KeyError), or its
    status is neither Pending, Running nor Done (assertion "Job failed
    with status"). *)
Theorem wait_for_job_raises (endpoint : string) (hd : gmap string string)
    (timeout : Z) (w : world) (e : exn) (w' : world) :
  wait_for_job endpoint hd timeout w = Raise e w' ->
  exists r, last_answer (trace w') = Some r /\ raised_by e r.
Proof.
  unfold wait_for_job. run. repeat (split_match; run);
    intros H; try discriminate; injection H as <- <-; cbn [trace].
  - match goal with
    | E : wait_loop _ _ _ _ _ _ _ = Raise _ _ |- _ =>
        apply wait_loop_raised_by in E; [exact E|]
    end.
    cbn [trace]. rewrite !last_answer_app. simpl.
    eexists. split; [reflexivity|].
    split; [apply Z.eqb_eq; assumption|].
    unfold observed.
    match goal with
    | E : json _ !! "status" = Some _ |- _ => rewrite E
    end. reflexivity.
  - rewrite last_answer_app. simpl. eexists. split; [reflexivity|].
    right. left. split; [apply Z.eqb_eq; assumption|].
    split; [assumption|reflexivity].
  - rewrite last_answer_app. simpl. eexists. split; [reflexivity|].
    left. split; [apply Z.eqb_neq; assumption|reflexivity].
Qed.

Lemma wait_for_job_raises_witness :
  wait_for_job "job" ∅ 10
    {| replies := [status_response "Running";
                   {| status_code := 503; json := ∅; content := "" |}];
       clock := [0; 5]; trace := [] |} =
  Raise (AssertionError (Failed_to_get_job_status ∅))
    {| replies := []; clock := [5];
       trace := first_events "job" ∅ (status_response "Running") "Running"
                ++ [Sleep 5;
                    Call (get_request "job" ∅)
                      (Some {| status_code := 503; json := ∅;
                               content := "" |})] |} /\
  exists r,
    last_answer
      (first_events "job" ∅ (status_response "Running") "Running"
       ++ [Sleep 5;
           Call (get_request "job" ∅)
             (Some {| status_code := 503; json := ∅; content := "" |})]) =
      Some r /\
    raised_by (AssertionError (Failed_to_get_job_status ∅)) r.
Proof.
  assert (wait_for_job "job" ∅ 10
            {| replies := [status_response "Running";
                           {| status_code := 503; json := ∅; content := "" |}];
               clock := [0; 5]; trace := [] |} =
          Raise (AssertionError (Failed_to_get_job_status ∅))
            {| replies := []; clock := [5];
               trace := first_events "job" ∅ (status_response "Running")
                          "Running"
                        ++ [Sleep 5;
                            Call (get_request "job" ∅)
                              (Some {| status_code := 503; json := ∅;
                                       content := "" |})] |}) as H
    by (vm_compute; reflexivity).
  split; [exact H|].
  exact (wait_for_job_raises "job" ∅ 10 _ _ _ H).
Defined.

(** X5: in every run, whatever its outcome, [wait_for_job] sends its first
    request and then only rounds of a sleep of 5 seconds followed by a GET
    of the same endpoint with the same headers: no two requests without
    the sleep between them, no other request, no other sleep. *)
Theorem wait_for_job_is_paced (endpoint : string) (hd : gmap string string)
    (timeout : Z) (w : world) :
  exists evs,
    trace (final (wait_for_job endpoint hd timeout w)) = trace w ++ evs /\
    (evs = [] \/
     exists answer evs',
       evs = Call (get_request endpoint hd) answer :: evs' /\
       paced (get_request endpoint hd) evs').
Proof.
  unfold wait_for_job. run. repeat (split_match; run).
  all: try match goal with
           | E : wait_loop ?f _ _ _ ?t0 ?st ?w1 = _ |- _ =>
               destruct (wait_loop_paced endpoint hd timeout t0 f st w1)
                 as (evs' & Htr & Hp);
               rewrite E in Htr; cbn [final trace] in Htr; rewrite Htr
           end.
  all: cbn [trace]; rewrite <- ?app_assoc; eexists;
    (split; [first [reflexivity | symmetry; apply app_nil_r]|]).
  all: first [ left; reflexivity
             | right; eexists _, _; split; [reflexivity|] ].
  all: simpl; rewrite ?app_nil_r; auto.
  apply (paced_app (get_request endpoint hd) [Print _] I
           (length evs') evs' (le_n _) Hp).
Qed.

(** ** How a run of polls ends *)

(** X3: after polls that showed Pending or Running within the timeout, a
    poll at which the clock has passed the timeout ends the run normally
    whatever status that poll shows, Error included: the status is printed
    after the timeout report, nothing is raised and nothing more is
    sent. *)
Theorem timeout_ends_the_run (endpoint : string) (hd : gmap string string)
    (timeout t0 t_over : Z) (r0 r_last : response) (mids : list response)
    (within : list Z) (status : string)
    (rest : list response) (ts : list Z) (tr : list event) :
  Forall still_running (r0 :: mids) ->
  answers r_last status ->
  length within = length mids ->
  Forall (fun t => t - t0 <= timeout) within ->
  timeout < t_over - t0 ->
  exists evs mark,
    wait_for_job endpoint hd timeout
      {| replies := r0 :: mids ++ r_last :: rest;
         clock := t0 :: within ++ t_over :: ts;
         trace := tr |} =
    Ok PyNone
      {| replies := rest; clock := ts;
         trace := tr ++ evs
                     ++ [Sleep 5;
                         Call (get_request endpoint hd) (Some r_last);
                         Print mark;
                         Print (timeout_line timeout);
                         Print (job_status_line status)] |}.
Proof.
  intros Hall Hs Hlen Hwithin Hover.
  apply Forall_cons_1 in Hall as [H0 Hmids].
  assert (exists s, answers r0 s /\ not_in_pending_running s = false)
    as (s0 & Hs0 & Hs0').
  { destruct H0 as [H|H]; eexists; (split; [exact H|reflexivity]). }
  rewrite (wait_for_job_enter _ _ _ _ _ _ _ _ _ Hs0).
  destruct (wait_loop_running endpoint hd timeout t0 mids within
              (S (S (length rest))) s0 (r_last :: rest) (t_over :: ts)
              (tr ++ first_events endpoint hd r0 s0)
              Hlen Hmids Hwithin Hs0') as (evs & s1 & Hs1 & Heq).
  replace (S (length (mids ++ r_last :: rest)))
    with (length mids + S (S (length rest)))%nat
    by (rewrite length_app; simpl; lia).
  exists (first_events endpoint hd r0 s0 ++ evs). eexists.
  rewrite Heq.
  rewrite (wait_loop_poll _ _ _ _ _ s1 status _ _ _ _ _ Hs1 Hs).
  cbv zeta.
  assert ((t_over - t0 >? timeout) = true) as -> by lia.
  cbn [wait_finish]. unfold log, poll_events. cbn [replies clock trace].
  rewrite <- !app_assoc. reflexivity.
Qed.

Lemma timeout_ends_the_run_witness :
  Forall still_running (status_response "Running" :: []) /\
  answers (status_response "Error") "Error" /\
  Forall (fun t => t - 0 <= 10) [] /\
  10 < 11 - 0 /\
  exists evs mark,
    wait_for_job "job" ∅ 10
      {| replies := status_response "Running" :: []
                      ++ status_response "Error" :: [];
         clock := 0 :: [] ++ 11 :: [];
         trace := [] |} =
    Ok PyNone
      {| replies := []; clock := [];
         trace := [] ++ evs
                     ++ [Sleep 5;
                         Call (get_request "job" ∅)
                           (Some (status_response "Error"));
                         Print mark;
                         Print (timeout_line 10);
                         Print (job_status_line "Error")] |}.
Proof.
  assert (Forall still_running (status_response "Running" :: [])) as H1.
  { constructor; [right; split; vm_compute; reflexivity|constructor]. }
  assert (answers (status_response "Error") "Error") as H2
    by (split; vm_compute; reflexivity).
  assert (Forall (fun t => t - 0 <= 10) []) as H3 by constructor.
  assert (10 < 11 - 0) as H4 by lia.
  split; [exact H1|]. split; [exact H2|]. split; [exact H3|].
  split; [exact H4|].
  exact (timeout_ends_the_run "job" ∅ 10 0 11 _ _ [] [] "Error" [] [] []
           H1 H2 eq_refl H3 H4).
Defined.

(** X4: after any number of polls that showed Pending or Running, a poll
    within the timeout that shows Done ends the run normally: the change to
    Done and "Job status: Done" are the last things printed, and the poll
    that showed Done is the last request: no sleep and no request follow
    it. *)
Theorem done_ends_the_run (endpoint : string) (hd : gmap string string)
    (timeout t0 t_done : Z) (r0 r_done : response) (mids : list response)
    (within : list Z) (rest : list response) (ts : list Z) (tr : list event) :
  Forall still_running (r0 :: mids) ->
  answers r_done "Done" ->
  length within = length mids ->
  Forall (fun t => t - t0 <= timeout) within ->
  t_done - t0 <= timeout ->
  exists evs,
    wait_for_job endpoint hd timeout
      {| replies := r0 :: mids ++ r_done :: rest;
         clock := t0 :: within ++ t_done :: ts;
         trace := tr |} =
    Ok PyNone
      {| replies := rest; clock := ts;
         trace := tr ++ evs
                     ++ [Sleep 5;
                         Call (get_request endpoint hd) (Some r_done);
                         Print ((nl +:+ "Done") +:+ "");
                         Print (job_status_line "Done")] |}.
Proof.
  intros Hall Hd Hlen Hwithin Hin.
  apply Forall_cons_1 in Hall as [H0 Hmids].
  assert (exists s, answers r0 s /\ not_in_pending_running s = false)
    as (s0 & Hs0 & Hs0').
  { destruct H0 as [H|H]; eexists; (split; [exact H|reflexivity]). }
  rewrite (wait_for_job_enter _ _ _ _ _ _ _ _ _ Hs0).
  destruct (wait_loop_running endpoint hd timeout t0 mids within
              (S (S (length rest))) s0 (r_done :: rest) (t_done :: ts)
              (tr ++ first_events endpoint hd r0 s0)
              Hlen Hmids Hwithin Hs0') as (evs & s1 & Hs1 & Heq).
  replace (S (length (mids ++ r_done :: rest)))
    with (length mids + S (S (length rest)))%nat
    by (rewrite length_app; simpl; lia).
  exists (first_events endpoint hd r0 s0 ++ evs).
  rewrite Heq.
  rewrite (wait_loop_poll _ _ _ _ _ s1 "Done" _ _ _ _ _ Hs1 Hd).
  cbv zeta.
  assert ((t_done - t0 >? timeout) = false) as -> by lia.
  rewrite wait_loop_exit by reflexivity.
  cbn [String.eqb Ascii.eqb Bool.eqb wait_finish].
  unfold log, poll_events. cbn [replies clock trace].
  assert (negb (String.eqb "Done" s1) = true) as ->.
  { apply negb_true_iff, String.eqb_neq. intros <-. discriminate Hs1. }
  rewrite <- !app_assoc. reflexivity.
Qed.

Lemma done_ends_the_run_witness :
  Forall still_running (status_response "pending"
                          :: [status_response "running"]) /\
  answers (status_response "DONE") "Done" /\
  Forall (fun t => t - 0 <= 1800) [5] /\
  10 - 0 <= 1800 /\
  exists evs,
    wait_for_job "job" ∅ 1800
      {| replies := status_response "pending" :: [status_response "running"]
                      ++ status_response "DONE" :: [ok_response];
         clock := 0 :: [5] ++ 10 :: [];
         trace := [] |} =
    Ok PyNone
      {| replies := [ok_response]; clock := [];
         trace := [] ++ evs
                     ++ [Sleep 5;
                         Call (get_request "job" ∅)
                           (Some (status_response "DONE"));
                         Print ((nl +:+ "Done") +:+ "");
                         Print (job_status_line "Done")] |}.
Proof.
  assert (Forall still_running (status_response "pending"
                                  :: [status_response "running"])) as H1.
  { repeat constructor;
      first [ left; split; vm_compute; reflexivity
            | right; split; vm_compute; reflexivity ]. }
  assert (answers (status_response "DONE") "Done") as H2
    by (split; vm_compute; reflexivity).
  assert (Forall (fun t => t - 0 <= 1800) [5]) as H3
    by (repeat constructor; lia).
  assert (10 - 0 <= 1800) as H4 by lia.
  split; [exact H1|]. split; [exact H2|]. split; [exact H3|].
  split; [exact H4|].
  exact (done_ends_the_run "job" ∅ 1800 0 10 _ _ _ [5] [ok_response] [] []
           H1 H2 eq_refl H3 H4).
Defined.

(** ** The failures of the login cell *)

(** X6: the login cell looks at the status code first and at the body only
    on 201: any other code is reported as "Login failed" with the code,
    whatever the body; on 201 a body without [user_id] is reported as such
    even when [token] is missing too, and a body with [user_id] and without
    [token] is reported after the user id has been printed. *)
Theorem login_failure_messages (host_url ngc_api_key : string) (r : response)
    (rest : list response) (cl : list Z) (tr : list event) :
  let w := {| replies := r :: rest; clock := cl; trace := tr |} in
  let sent := Call (login_request host_url ngc_api_key) (Some r) in
  let code := Print (pretty (status_code r) +:+ nl) in
  (status_code r <> 201 ->
   login host_url ngc_api_key w =
   Raise (AssertionError (Login_failed (status_code r)))
     {| replies := rest; clock := cl; trace := tr ++ [sent; code] |}) /\
  (status_code r = 201 -> json r !! "user_id" = None ->
   login host_url ngc_api_key w =
   Raise (AssertionError user_id_not_in_response)
     {| replies := rest; clock := cl; trace := tr ++ [sent; code] |}) /\
  (forall uid,
      status_code r = 201 -> json r !! "user_id" = Some uid ->
      json r !! "token" = None ->
      login host_url ngc_api_key w =
      Raise (AssertionError token_not_in_response)
        {| replies := rest; clock := cl;
           trace := tr ++ [sent; code;
                           Print (("User ID" +:+ " " +:+ uid) +:+ nl)] |}).
Proof.
  intros w sent code. subst w sent code. unfold login_request.
  split; [|split].
  - intros H. apply Z.eqb_neq in H. unfold login, has_key. run.
    rewrite H. run. rewrite <- !app_assoc. reflexivity.
  - intros H Hu. unfold login, has_key. run.
    rewrite H. run. rewrite Hu. run. rewrite <- !app_assoc. reflexivity.
  - intros uid H Hu Ht. unfold login, has_key. run.
    rewrite H. run. rewrite Hu. run. rewrite Ht. run.
    rewrite <- !app_assoc. reflexivity.
Qed.

Lemma login_failure_messages_witness :
  let r := {| status_code := 401;
              json := {[ "user_id" := "u1"; "token" := "t1" ]};
              content := "" |} in
  status_code r <> 201 /\
  login "host" "key" {| replies := [r]; clock := []; trace := [] |} =
  Raise (AssertionError (Login_failed (status_code r)))
    {| replies := []; clock := [];
       trace := [] ++ [Call (login_request "host" "key") (Some r);
                       Print (pretty (status_code r) +:+ nl)] |}.
Proof.
  intros r.
  assert (status_code r <> 201) as H by discriminate.
  split; [exact H|].
  exact (proj1 (login_failure_messages "host" "key" r [] [] []) H).
Defined.

(** ** Where the requests of a session go *)

Lemma append_assoc (s1 s2 s3 : string) :
  (s1 +:+ s2) +:+ s3 = s1 +:+ (s2 +:+ s3).
Proof.
  induction s1 as [|c s1 IH]; [reflexivity|].
  change (String c ((s1 +:+ s2) +:+ s3) = String c (s1 +:+ (s2 +:+ s3))).
  rewrite IH. reflexivity.
Qed.

Ltac session_call :=
  intros; simpl; split; [reflexivity|]; split;
  [ first [ eexists; reflexivity
          | eexists; unfold job_endpoint; rewrite ?append_assoc; reflexivity
          | assumption ]
  | intros d Hd; first [ discriminate Hd
                       | injection Hd as <-; apply lookup_singleton_ne;
                         discriminate ] ].

Ltac session_step :=
  first
    [ apply emits_ret | apply emits_raise | apply emits_assert
    | apply emits_getitem | apply emits_time_time
    | apply emits_one; exact I
    | apply emits_send; session_call
    | apply emits_bind; [|intros]
    | match goal with
      | |- emits _ (if ?b then _ else _) => destruct b
      end ].

Section Session.

Variables (base_url : string) (hd : gmap string string).

Lemma wait_loop_in_session (endpoint : string) (timeout start_time : Z)
    (fuel : nat) :
  (exists path, endpoint = base_url +:+ path) ->
  forall status, emits (in_session base_url hd)
                   (wait_loop fuel endpoint hd timeout start_time status).
Proof.
  intros Hep. induction fuel as [|fuel IH]; intros status.
  - intros w. exists []. rewrite wait_loop_O, app_nil_r. auto.
  - rewrite wait_loop_unfold.
    unfold time_sleep, print, requests_get.
    repeat session_step; apply IH.
Qed.

Lemma wait_for_job_in_session (endpoint : string) (timeout : Z) :
  (exists path, endpoint = base_url +:+ path) ->
  emits (in_session base_url hd) (wait_for_job endpoint hd timeout).
Proof.
  intros Hep. unfold wait_for_job, print, requests_get.
  repeat session_step.
  intros w. apply wait_loop_in_session. exact Hep.
Qed.

Lemma cells_in_session
    (train_dataset_id val_dataset_id experiment_id job_id : string) :
  emits (in_session base_url hd)
    (monitor base_url hd experiment_id job_id >>
     download base_url hd experiment_id job_id >>
     cleanup base_url hd experiment_id job_id train_dataset_id val_dataset_id).
Proof.
  apply emits_bind; [|intros _; apply emits_bind; [|intros _]].
  - unfold monitor, print, requests_get.
    repeat first [ apply wait_for_job_in_session; eexists; reflexivity
                 | session_step ].
  - unfold download, print, write_file, requests_get, requests_get_data.
    repeat session_step.
  - unfold cleanup, delete_experiment, delete_datasets, print,
      requests_get, requests_post, requests_delete.
    repeat session_step.
Qed.

End Session.

(** X7: after a successful login every request of the cells that follow
    goes to a URL below [host_url/api/v1/users/user_id], carries the
    bearer headers, and has no [ngc_api_key] in its body: the API key is
    sent once, in the login request. *)
Theorem session_requests (host_url ngc_api_key : string)
    (train_dataset_id val_dataset_id experiment_id job_id : string)
    (r : response) (rest : list response) (cl : list Z) (tr : list event)
    (uid tok : string) :
  status_code r = 201 ->
  json r !! "user_id" = Some uid -> json r !! "token" = Some tok ->
  exists prints evs,
    trace (final (notebook host_url ngc_api_key train_dataset_id
                    val_dataset_id experiment_id job_id
                    {| replies := r :: rest; clock := cl; trace := tr |})) =
    tr ++ Call (login_request host_url ngc_api_key) (Some r)
       :: prints ++ evs /\
    Forall printed prints /\
    rq_data (login_request host_url ngc_api_key) =
      Some {[ "ngc_api_key" := ngc_api_key ]} /\
    Forall (in_session (host_url +:+ "/api/v1/users/" +:+ uid) (bearer tok))
           evs.
Proof.
  intros H201 Huid Htok.
  destruct (login_run host_url ngc_api_key r rest cl tr) as [Hok _].
  destruct (Hok uid tok H201 Huid Htok) as (prints & Hprints & Hlogin).
  match type of Hlogin with
  | _ = Ok ?s ?w' =>
      destruct (cells_in_session (host_url +:+ "/api/v1/users/" +:+ uid)
                  (bearer tok) train_dataset_id val_dataset_id
                  experiment_id job_id w') as (evs & Htr & Hevs)
  end.
  exists prints, evs. split; [|split; [exact Hprints|split; [reflexivity|]]].
  - unfold notebook, bind at 1. rewrite Hlogin. simpl.
    rewrite Htr. simpl. rewrite <- app_assoc. reflexivity.
  - exact Hevs.
Qed.

Lemma session_requests_witness :
  let r := {| status_code := 201;
              json := {[ "user_id" := "u1"; "token" := "t1" ]};
              content := "" |} in
  status_code r = 201 /\
  json r !! "user_id" = Some "u1" /\ json r !! "token" = Some "t1" /\
  exists prints evs,
    trace (final (notebook "host" "key" "d1" "d2" "e1" "j1"
                    {| replies := [r]; clock := []; trace := [] |})) =
    [] ++ Call (login_request "host" "key") (Some r) :: prints ++ evs /\
    Forall printed prints /\
    rq_data (login_request "host" "key") = Some {[ "ngc_api_key" := "key" ]} /\
    Forall (in_session ("host" +:+ "/api/v1/users/" +:+ "u1") (bearer "t1"))
           evs.
Proof.
  intros r.
  assert (status_code r = 201) as H1 by reflexivity.
  assert (json r !! "user_id" = Some "u1") as H2 by (vm_compute; reflexivity).
  assert (json r !! "token" = Some "t1") as H3 by (vm_compute; reflexivity).
  split; [exact H1|]. split; [exact H2|]. split; [exact H3|].
  exact (session_requests "host" "key" "d1" "d2" "e1" "j1" r [] [] []
           "u1" "t1" H1 H2 H3).
Defined.

(** ** What the download cell leaves on disk *)

Lemma files_snoc (evs : list event) (ev : event) :
  files (evs ++ [ev]) =
  match ev with
  | Save path bytes => <[path := bytes]> (files evs)
  | _ => files evs
  end.
Proof. unfold files. rewrite fold_left_app. reflexivity. Qed.

(** X8: when the status check shows Done and both download requests are
    answered 200, the cell writes the two bodies to the same file
    [job_id.tar.gz], the second over the first: what is left on disk is
    the body of the second request, the export of the bundle. *)
Theorem export_replaces_archive (base_url : string) (hd : gmap string string)
    (experiment_id job_id : string) (checked archive export : response)
    (rest : list response) (cl : list Z) (tr : list event) :
  json checked !! "status" = Some "Done" ->
  status_code archive = 200 -> status_code export = 200 ->
  let endpoint := job_endpoint base_url experiment_id job_id in
  let path := job_id +:+ ".tar.gz" in
  let evs :=
    [Call (get_request endpoint hd) (Some checked);
     Call (get_request (endpoint +:+ ":download") hd) (Some archive);
     Save path (content archive);
     Print (("Bundle training results are downloaded as " +:+ job_id
               +:+ ".tar.gz") +:+ nl);
     Call {| rq_method := GET; rq_url := endpoint +:+ ":download";
             rq_headers := hd;
             rq_data := Some {[ "export_type" := "monai_bundle" ]} |}
          (Some export);
     Save path (content export);
     Print ("Downloaded!" +:+ nl)] in
  download base_url hd experiment_id job_id
    {| replies := checked :: archive :: export :: rest; clock := cl;
       trace := tr |} =
  Ok tt {| replies := rest; clock := cl; trace := tr ++ evs |} /\
  files (tr ++ evs) !! path = Some (content export).
Proof.
  intros Hdone Ha He endpoint path evs. subst endpoint path evs. split.
  - unfold download. run. rewrite Hdone. run. rewrite Ha. run.
    rewrite He. run. rewrite <- !app_assoc. reflexivity.
  - unfold files. rewrite fold_left_app. cbn [fold_left].
    apply lookup_insert_eq.
Qed.

Lemma export_replaces_archive_witness :
  let checked := status_response "Done" in
  let archive := {| status_code := 200; json := ∅; content := "logs" |} in
  let export := {| status_code := 200; json := ∅; content := "bundle" |} in
  json checked !! "status" = Some "Done" /\
  status_code archive = 200 /\ status_code export = 200 /\
  files ([] ++
    [Call (get_request (job_endpoint "base" "e1" "j1") ∅) (Some checked);
     Call (get_request (job_endpoint "base" "e1" "j1" +:+ ":download") ∅)
       (Some archive);
     Save ("j1" +:+ ".tar.gz") (content archive);
     Print (("Bundle training results are downloaded as " +:+ "j1"
               +:+ ".tar.gz") +:+ nl);
     Call {| rq_method := GET;
             rq_url := job_endpoint "base" "e1" "j1" +:+ ":download";
             rq_headers := ∅;
             rq_data := Some {[ "export_type" := "monai_bundle" ]} |}
          (Some export);
     Save ("j1" +:+ ".tar.gz") (content export);
     Print ("Downloaded!" +:+ nl)]) !! ("j1" +:+ ".tar.gz") =
  Some (content export).
Proof.
  intros checked archive export.
  assert (json checked !! "status" = Some "Done") as H1
    by (vm_compute; reflexivity).
  assert (status_code archive = 200) as H2 by reflexivity.
  assert (status_code export = 200) as H3 by reflexivity.
  split; [exact H1|]. split; [exact H2|]. split; [exact H3|].
  exact (proj2 (export_replaces_archive "base" ∅ "e1" "j1" checked archive
                  export [] [] [] H1 H2 H3)).
Defined.

(** X9: a download request answered with another code than 200 and a
    JSON object as body ends the cell with the assertion "Failed to
    download bundle" carrying that body: at the first request nothing has
    been written, at the second the file holds the body of the first. *)
Theorem failed_download (base_url : string) (hd : gmap string string)
    (experiment_id job_id : string) (checked archive : response)
    (rest : list response) (cl : list Z) (tr : list event) :
  json checked !! "status" = Some "Done" ->
  let endpoint := job_endpoint base_url experiment_id job_id in
  let path := job_id +:+ ".tar.gz" in
  let asked :=
    [Call (get_request endpoint hd) (Some checked);
     Call (get_request (endpoint +:+ ":download") hd) (Some archive)] in
  (status_code archive <> 200 ->
   download base_url hd experiment_id job_id
     {| replies := checked :: archive :: rest; clock := cl; trace := tr |} =
   Raise (AssertionError (Failed_to_download_bundle (json archive)))
     {| replies := rest; clock := cl; trace := tr ++ asked |} /\
   files (tr ++ asked) = files tr) /\
  (forall export rest',
      status_code archive = 200 -> status_code export <> 200 ->
      rest = export :: rest' ->
      exists evs,
        download base_url hd experiment_id job_id
          {| replies := checked :: archive :: rest; clock := cl;
             trace := tr |} =
        Raise (AssertionError (Failed_to_download_bundle (json export)))
          {| replies := rest'; clock := cl; trace := tr ++ evs |} /\
        files (tr ++ evs) !! path = Some (content archive)).
Proof.
  intros Hdone endpoint path asked. subst endpoint path asked. split.
  - intros Ha. apply Z.eqb_neq in Ha. split.
    + unfold download. run. rewrite Hdone. run. rewrite Ha. run.
      rewrite <- !app_assoc. reflexivity.
    + unfold files. rewrite fold_left_app. reflexivity.
  - intros export rest' Ha He ->. apply Z.eqb_neq in He.
    eexists. split.
    + unfold download. run. rewrite Hdone. run. rewrite Ha. run.
      rewrite He. run. rewrite <- !app_assoc. reflexivity.
    + unfold files. rewrite fold_left_app. cbn [fold_left app].
      apply lookup_insert_eq.
Qed.

Lemma failed_download_witness :
  let checked := status_response "Done" in
  let archive := {| status_code := 404; json := ∅; content := "" |} in
  json checked !! "status" = Some "Done" /\
  status_code archive <> 200 /\
  download "base" ∅ "e1" "j1"
    {| replies := checked :: archive :: []; clock := []; trace := [] |} =
  Raise (AssertionError (Failed_to_download_bundle (json archive)))
    {| replies := []; clock := [];
       trace := [] ++
         [Call (get_request (job_endpoint "base" "e1" "j1") ∅) (Some checked);
          Call (get_request (job_endpoint "base" "e1" "j1" +:+ ":download") ∅)
            (Some archive)] |}.
Proof.
  intros checked archive.
  assert (json checked !! "status" = Some "Done") as H1
    by (vm_compute; reflexivity).
  assert (status_code archive <> 200) as H2 by discriminate.
  split; [exact H1|]. split; [exact H2|].
  exact (proj1 (proj1 (failed_download "base" ∅ "e1" "j1" checked archive
                         [] [] [] H1) H2)).
Defined.

(** ** The outcomes of the clean-up *)

Ltac booleans :=
  repeat match goal with
         | H : negb _ = false |- _ => apply negb_false_iff in H
         | H : negb _ = true |- _ => apply negb_true_iff in H
         | H : String.eqb _ _ = true |- _ => apply String.eqb_eq in H; subst
         | H : String.eqb _ _ = false |- _ => apply String.eqb_neq in H
         | H : (_ =? _)%Z = true |- _ => apply Z.eqb_eq in H
         | H : (_ =? _)%Z = false |- _ => apply Z.eqb_neq in H
         end.

(** X10: when the clean-up ends normally, the experiment and the two
    datasets have been deleted, in this order, each deletion answered 200;
    before them the job was seen Done, or was cancelled with answer 200. *)
Theorem cleanup_success (base_url : string) (hd : gmap string string)
    (experiment_id job_id train_dataset_id val_dataset_id : string)
    (w w' : world) :
  cleanup base_url hd experiment_id job_id train_dataset_id val_dataset_id w =
    Ok tt w' ->
  let job_url := job_endpoint base_url experiment_id job_id in
  exists checked cancel r1 r2 r3,
    trace w' =
    trace w ++ Call (get_request job_url hd) (Some checked) :: cancel
      ++ [Call (delete_request (base_url +:+ "/experiments/" +:+ experiment_id)
                  hd) (Some r1);
          Print (repr_response r1 +:+ nl);
          Call (delete_request (base_url +:+ "/datasets/" +:+ train_dataset_id)
                  hd) (Some r2);
          Print (repr_response r2 +:+ nl);
          Call (delete_request (base_url +:+ "/datasets/" +:+ val_dataset_id)
                  hd) (Some r3);
          Print (repr_response r3 +:+ nl)] /\
    status_code r1 = 200 /\ status_code r2 = 200 /\ status_code r3 = 200 /\
    ((json checked !! "status" = Some "Done" /\ cancel = []) \/
     (exists status r,
         json checked !! "status" = Some status /\ status <> "Done" /\
         status_code r = 200 /\
         cancel = [Call (post_request (job_url +:+ ":cancel") hd) (Some r);
                   Print (repr_response r +:+ nl)])).
Proof.
  intros H job_url. subst job_url. destruct w as [rs cl tr]. revert H.
  unfold cleanup, delete_experiment, delete_datasets.
  run. repeat (split_match; run); intros H; try discriminate;
    injection H as <-; booleans; cbn [trace]; rewrite <- !app_assoc.
  - eexists _, [_; _], _, _, _. split; [simpl; reflexivity|].
    repeat (split; [assumption|]). right. eexists _, _.
    split; [eassumption|]. split; [assumption|].
    split; [|reflexivity]. assumption.
  - eexists _, [], _, _, _. split; [simpl; reflexivity|].
    repeat (split; [assumption|]). left. split; [assumption|reflexivity].
Qed.

Lemma cleanup_success_witness :
  let w := {| replies := [status_response "Done"; ok_response; ok_response;
                          ok_response];
              clock := []; trace := [] |} in
  let w' :=
    {| replies := []; clock := [];
       trace :=
         [Call (get_request (job_endpoint "base" "e1" "j1") ∅)
            (Some (status_response "Done"));
          Call (delete_request ("base" +:+ "/experiments/" +:+ "e1") ∅)
            (Some ok_response);
          Print (repr_response ok_response +:+ nl);
          Call (delete_request ("base" +:+ "/datasets/" +:+ "d1") ∅)
            (Some ok_response);
          Print (repr_response ok_response +:+ nl);
          Call (delete_request ("base" +:+ "/datasets/" +:+ "d2") ∅)
            (Some ok_response);
          Print (repr_response ok_response +:+ nl)] |} in
  cleanup "base" ∅ "e1" "j1" "d1" "d2" w = Ok tt w' /\
  exists checked cancel r1 r2 r3,
    trace w' =
    trace w ++ Call (get_request (job_endpoint "base" "e1" "j1") ∅)
                 (Some checked) :: cancel
      ++ [Call (delete_request ("base" +:+ "/experiments/" +:+ "e1") ∅)
            (Some r1);
          Print (repr_response r1 +:+ nl);
          Call (delete_request ("base" +:+ "/datasets/" +:+ "d1") ∅) (Some r2);
          Print (repr_response r2 +:+ nl);
          Call (delete_request ("base" +:+ "/datasets/" +:+ "d2") ∅) (Some r3);
          Print (repr_response r3 +:+ nl)] /\
    status_code r1 = 200 /\ status_code r2 = 200 /\ status_code r3 = 200 /\
    ((json checked !! "status" = Some "Done" /\ cancel = []) \/
     (exists status r,
         json checked !! "status" = Some status /\ status <> "Done" /\
         status_code r = 200 /\
         cancel = [Call (post_request
                           (job_endpoint "base" "e1" "j1" +:+ ":cancel") ∅)
                     (Some r);
                   Print (repr_response r +:+ nl)])).
Proof.
  intros w w'.
  assert (cleanup "base" ∅ "e1" "j1" "d1" "d2" w = Ok tt w') as H
    by (vm_compute; reflexivity).
  split; [exact H|].
  exact (cleanup_success "base" ∅ "e1" "j1" "d1" "d2" w w' H).
Defined.

Lemma ends_with_call (tr l : list event) (ev : event) :
  (exists pre, l = tr ++ pre) -> exists evs, l ++ [ev] = tr ++ evs ++ [ev].
Proof. intros [pre ->]. exists pre. symmetry. apply app_assoc. Qed.

(** X11: when the answers carry JSON objects and the clean-up raises,
    the last thing it did is a request that was answered: with another
    code than 200 for an assertion, with a body without [status] for the
    KeyError of the status check.  Nothing is printed or sent after the
    failed request. *)
Theorem cleanup_failure (base_url : string) (hd : gmap string string)
    (experiment_id job_id train_dataset_id val_dataset_id : string)
    (w : world) (e : exn) (w' : world) :
  cleanup base_url hd experiment_id job_id train_dataset_id val_dataset_id w =
    Raise e w' ->
  exists evs rq r,
    trace w' = trace w ++ evs ++ [Call rq (Some r)] /\
    ((status_code r <> 200 /\ exists msg, e = AssertionError msg) \/
     (rq = get_request (job_endpoint base_url experiment_id job_id) hd /\
      json r !! "status" = None /\ e = KeyError "status")).
Proof.
  intros H. destruct w as [rs cl tr]. revert H.
  unfold cleanup, delete_experiment, delete_datasets.
  run. repeat (split_match; run); intros H; try discriminate;
    injection H as <- <-; booleans; cbn [trace].
  all: match goal with
       | |- exists evs rq r, ?L ++ [Call ?rq0 (Some ?r0)] = _ /\ _ =>
           destruct (ends_with_call tr L (Call rq0 (Some r0)))
             as (evs & Hevs);
           [repeat apply prefix_snoc; apply prefix_refl|];
           exists evs, rq0, r0; split; [exact Hevs|]
       end.
  all: first [ left; split; [assumption|eexists; reflexivity]
             | right; split; [reflexivity|];
               split; [assumption|reflexivity] ].
Qed.

Lemma cleanup_failure_witness :
  let w := {| replies := [status_response "Done"; ok_response;
                          {| status_code := 409; json := ∅; content := "" |}];
              clock := []; trace := [] |} in
  let refused := {| status_code := 409; json := ∅; content := "" |} in
  let w' :=
    {| replies := []; clock := [];
       trace :=
         [Call (get_request (job_endpoint "base" "e1" "j1") ∅)
            (Some (status_response "Done"));
          Call (delete_request ("base" +:+ "/experiments/" +:+ "e1") ∅)
            (Some ok_response);
          Print (repr_response ok_response +:+ nl);
          Call (delete_request ("base" +:+ "/datasets/" +:+ "d1") ∅)
            (Some refused)] |} in
  cleanup "base" ∅ "e1" "j1" "d1" "d2" w =
    Raise (AssertionError (Delete_train_dataset_failed ∅)) w' /\
  exists evs rq r,
    trace w' = trace w ++ evs ++ [Call rq (Some r)] /\
    ((status_code r <> 200 /\
      exists msg, AssertionError (Delete_train_dataset_failed ∅) =
                  AssertionError msg) \/
     (rq = get_request (job_endpoint "base" "e1" "j1") ∅ /\
      json r !! "status" = None /\
      AssertionError (Delete_train_dataset_failed ∅) = KeyError "status")).
Proof.
  intros w refused w'.
  assert (cleanup "base" ∅ "e1" "j1" "d1" "d2" w =
          Raise (AssertionError (Delete_train_dataset_failed ∅)) w') as H
    by (vm_compute; reflexivity).
  split; [exact H|].
  exact (cleanup_failure "base" ∅ "e1" "j1" "d1" "d2" w _ w' H).
Defined.

(** ** Ties between versions *)

Module Auto3DSegTies.
Import Auto3DSeg.

Section Ties.

Context {V : Type} (lt : V -> V -> bool).

Lemma insert_sorted_behind (key : @experiment V -> V) (x : experiment)
    (l : list experiment) :
  (forall y, In y l -> lt (key x) (key y) = false) ->
  insert_sorted lt key x l = l ++ [x].
Proof.
  induction l as [|y l IH]; intros H; [reflexivity|].
  cbn [insert_sorted app]. rewrite (H y (or_introl eq_refl)).
  rewrite IH; [reflexivity|]. intros z Hz. apply H. right. exact Hz.
Qed.

Lemma insert_sorted_before (key : @experiment V -> V) (x p : experiment)
    (l : list experiment) :
  lt (key x) (key p) = true ->
  exists l', insert_sorted lt key x (l ++ [p]) = l' ++ [p].
Proof.
  intros H. induction l as [|y l [l' IH]]; cbn [insert_sorted app].
  - rewrite H. exists [x]. reflexivity.
  - destruct (lt (key x) (key y)).
    + exists (x :: y :: l). reflexivity.
    + rewrite IH. exists (y :: l'). reflexivity.
Qed.

Lemma fold_insert_In (key : @experiment V -> V) (l : list experiment) :
  forall acc y,
    In y (fold_left (fun acc x => insert_sorted lt key x acc) l acc) ->
    In y l \/ In y acc.
Proof.
  induction l as [|x l IH]; intros acc y Hy; [right; exact Hy|].
  apply IH in Hy as [Hy|Hy]; [left; right; exact Hy|].
  apply Auto3DSegFacts.insert_sorted_In in Hy as [->|Hy];
    [left; left; reflexivity|right; exact Hy].
Qed.

Lemma fold_insert_keeps_last (key : @experiment V -> V) (p : experiment)
    (l : list experiment) :
  (forall q, In q l -> lt (key q) (key p) = true) ->
  forall acc, exists acc',
    fold_left (fun acc x => insert_sorted lt key x acc) l (acc ++ [p]) =
    acc' ++ [p].
Proof.
  induction l as [|x l IH]; intros H acc; [exists acc; reflexivity|].
  cbn [fold_left].
  destruct (insert_sorted_before key x p acc (H x (or_introl eq_refl)))
    as [acc1 ->].
  apply IH. intros q Hq. apply H. right. exact Hq.
Qed.

(** X12: when [<] on the versions is a strict order whose complement is
    transitive, as on numbers and on strings, the cell takes the last
    element of the stable sort, so among the matching elements it selects
    the one that no earlier match exceeds and that exceeds every later
    match: with equal versions the match listed last wins. *)
Theorem latest_listed_wins (l1 l2 : list (@experiment V)) (p : experiment) :
  (forall a b, lt a b = true -> lt b a = false) ->
  (forall a b c, lt b a = false -> lt c b = false -> lt c a = false) ->
  is_automl_base p = true ->
  (forall q, In q l1 -> is_automl_base q = true ->
             lt (version p) (version q) = false) ->
  (forall q, In q l2 -> is_automl_base q = true ->
             lt (version q) (version p) = true) ->
  base_experiment lt (l1 ++ p :: l2) = inr p /\
  base_experiment_id lt (l1 ++ p :: l2) = inr (id p).
Proof.
  intros _ _ Hp H1 H2.
  assert (base_experiment lt (l1 ++ p :: l2) = inr p) as H.
  { unfold base_experiment, automl_base_exps.
    rewrite List.filter_app. cbn [List.filter]. rewrite Hp.
    rewrite length_app. cbn [length].
    replace (0 <? length (List.filter is_automl_base l1)
                  + S (length (List.filter is_automl_base l2)))%nat
      with true by (symmetry; apply Nat.ltb_lt; lia).
    cbn [negb]. unfold sorted. rewrite fold_left_app. cbn [fold_left].
    rewrite insert_sorted_behind.
    - destruct (fold_insert_keeps_last version p
                  (List.filter is_automl_base l2)) with
        (acc := fold_left (fun acc x => insert_sorted lt version x acc)
                  (List.filter is_automl_base l1) []) as [acc' ->].
      + intros q Hq. apply List.filter_In in Hq as [Hq Hb]. auto.
      + rewrite last_snoc. reflexivity.
    - intros y Hy. apply fold_insert_In in Hy as [Hy|[]].
      apply List.filter_In in Hy as [Hy Hb]. auto. }
  split; [exact H|]. unfold base_experiment_id. rewrite H. reflexivity.
Qed.

End Ties.

Lemma latest_listed_wins_witness :
  let l1 := [entry "b1" "monai_automl" "MONAI Auto3dSeg" 2;
             entry "b2" "monai_automl" "MONAI Auto3dSeg" 5;
             entry "b3" "monai_vista3d" "MONAI VISTA" 9] in
  let p := entry "b4" "monai_automl" "MONAI Auto3dSeg" 5 in
  let l2 := [entry "b5" "monai_automl" "MONAI Auto3dSeg" 3] in
  (forall a b, Z.ltb a b = true -> Z.ltb b a = false) /\
  (forall a b c, Z.ltb b a = false -> Z.ltb c b = false -> Z.ltb c a = false) /\
  is_automl_base p = true /\
  base_experiment Z.ltb (l1 ++ p :: l2) = inr p /\
  base_experiment_id Z.ltb (l1 ++ p :: l2) = inr (id p).
Proof.
  intros l1 p l2.
  assert (forall a b, Z.ltb a b = true -> Z.ltb b a = false) as Ha by lia.
  assert (forall a b c, Z.ltb b a = false -> Z.ltb c b = false ->
                        Z.ltb c a = false) as Ht by lia.
  assert (is_automl_base p = true) as Hp by reflexivity.
  split; [exact Ha|]. split; [exact Ht|]. split; [exact Hp|].
  apply (latest_listed_wins Z.ltb l1 l2 p Ha Ht Hp).
  - intros q [<-|[<-|[<-|[]]]] Hq; try discriminate Hq; reflexivity.
  - intros q [<-|[]] Hq. reflexivity.
Defined.

End Auto3DSegTies.

(** ** The pretrained models *)

Module PretrainedFacts.
Import Pretrained.

Lemma filter_first {A} (f : A -> bool) (l : list A) :
  match List.filter f l with
  | p :: _ =>
      exists l1 l2, l = l1 ++ p :: l2 /\ f p = true /\
                    Forall (fun q => f q = false) l1
  | [] => Forall (fun q => f q = false) l
  end.
Proof.
  induction l as [|x l IH]; cbn [List.filter]; [constructor|].
  destruct (f x) eqn:E.
  - exists [], l. auto.
  - destruct (List.filter f l) as [|p rest].
    + constructor; assumption.
    + destruct IH as (l1 & l2 & -> & Hp & Hl1).
      exists (x :: l1), l2. auto.
Qed.

Lemma is_base_spec (arch : string) (p : experiment) :
  is_base arch p = true <-> network_arch p = arch /\ base_experiment p = [].
Proof.
  unfold is_base. rewrite andb_true_iff, negb_true_iff, String.eqb_eq,
    Nat.ltb_ge. destruct (base_experiment p); simpl; split;
    intros [H1 H2]; split; auto; try lia; discriminate.
Qed.

(** X13: each of the two ids is the id of the first element of the listing
    that has the wanted architecture and an empty [base_experiment]; when
    the listing has no such element the cell raises IndexError, not an
    assertion. *)
Theorem first_pretrained_is_taken (res : list experiment) :
  let picked (choice : exn + string) (arch : string) :=
    match choice with
    | inr i =>
        exists l1 p l2,
          res = l1 ++ p :: l2 /\ id p = i /\
          network_arch p = arch /\ base_experiment p = [] /\
          Forall (fun q => ~ (network_arch q = arch /\ base_experiment q = []))
                 l1
    | inl e =>
        e = IndexError /\
        Forall (fun q => ~ (network_arch q = arch /\ base_experiment q = []))
               res
    end in
  picked (ptm_vista res) "monai_vista3d" /\
  picked (ptm_annotation res) "monai_annotation".
Proof.
  assert (forall arch (l : list experiment),
             Forall (fun q => is_base arch q = false) l ->
             Forall (fun q => ~ (network_arch q = arch /\
                                 base_experiment q = [])) l) as Hno.
  { intros arch l H. eapply Forall_impl; [exact H|]. intros q Hq Hb.
    apply is_base_spec in Hb. simpl in Hq. congruence. }
  intros picked. subst picked. unfold ptm_vista, ptm_annotation. split.
  - pose proof (filter_first (is_base "monai_vista3d") res) as H.
    destruct (List.filter (is_base "monai_vista3d") res) as [|p rest].
    + split; [reflexivity|]. apply Hno, H.
    + destruct H as (l1 & l2 & -> & Hp & Hl1).
      apply is_base_spec in Hp as [Ha Hb].
      exists l1, p, l2. repeat split; auto.
  - pose proof (filter_first (is_base "monai_annotation") res) as H.
    destruct (List.filter (is_base "monai_annotation") res) as [|p rest].
    + split; [reflexivity|]. apply Hno, H.
    + destruct H as (l1 & l2 & -> & Hp & Hl1).
      apply is_base_spec in Hp as [Ha Hb].
      exists l1, p, l2. repeat split; auto.
Qed.

End PretrainedFacts.

(** ** The clean-up cells of the other two notebooks *)

Module CustomBundleFacts.
Import CustomBundle.

Lemma delete_base_experiments_returned (base_url : string)
    (hd : gmap string string) (ids : list string) :
  forall (w w' : world),
    delete_base_experiments base_url hd ids w = Returned tt w' ->
    exists rs,
      length rs = length ids /\
      Forall (fun r => status_code r = 200) rs /\
      trace w' = trace w ++ deletions base_url hd ids rs.
Proof.
  induction ids as [|i ids IH]; intros [rs cl tr] w'.
  - cbn [delete_base_experiments]. cells. intros H. injection H as <-.
    exists []. cbn [trace deletions]. rewrite app_nil_r. auto.
  - cbn [delete_base_experiments]. cells.
    destruct rs as [|r rs]; [discriminate|].
    destruct (status_code r =? 200)%Z eqn:Hr; cells; [|discriminate].
    apply Z.eqb_eq in Hr.
    intros H. apply IH in H. destruct H as (rs' & Hlen & Hall & Htr).
    exists (r :: rs'). cbn [length deletions]. split; [congruence|].
    split; [constructor; assumption|].
    rewrite Htr. cbn [trace]. rewrite <- !app_assoc. reflexivity.
Qed.

(** X14: the loop over [base_experiment_ids] deletes the base experiments
    in the order of the list, one request each, and goes on only after an
    answer 200: on every world it deletes a prefix of the list; it returns
    when that prefix is the whole list, and otherwise ends at the request
    for the next id, without answer when the script is used up, and with
    the assertion "Delete base experiment failed" when that request was
    answered with another code and a JSON object as body.  The ids after
    it are not asked for. *)
Theorem base_experiments_in_order (base_url : string)
    (hd : gmap string string) (ids : list string) (w : world) :
  exists deleted others rs,
    ids = deleted ++ others /\
    length rs = length deleted /\
    Forall (fun r => status_code r = 200) rs /\
    let sent := deletions base_url hd deleted rs in
    match delete_base_experiments base_url hd ids w with
    | Returned _ w' => others = [] /\ trace w' = trace w ++ sent
    | Failed e w' =>
        exists i others' r,
          others = i :: others' /\ status_code r <> 200 /\
          e = Assertion (Delete_base_experiment_failed (json r)) /\
          trace w' =
          trace w ++ sent
            ++ [Call (delete_request (base_url +:+ "/experiments/" +:+ i) hd)
                     (Some r)]
    | Waiting w' =>
        exists i others',
          others = i :: others' /\
          trace w' =
          trace w ++ sent
            ++ [Call (delete_request (base_url +:+ "/experiments/" +:+ i) hd)
                     None]
    end.
Proof.
  revert w. induction ids as [|i ids IH]; intros [rs cl tr].
  - exists [], [], []. cbn [delete_base_experiments]. cells.
    cbn [deletions trace app length]. rewrite app_nil_r.
    repeat split. constructor.
  - cbn [delete_base_experiments]. cells. destruct rs as [|r rs].
    + exists [], (i :: ids), []. cells. cbn [deletions trace app].
      repeat (split; [first [reflexivity|constructor]|]).
      exists i, ids. split; reflexivity.
    + destruct (status_code r =? 200)%Z eqn:Hr; cells.
      * apply Z.eqb_eq in Hr.
        match goal with
        | |- context [delete_base_experiments _ _ _ ?w1] =>
            destruct (IH w1) as (d & o & rs' & -> & Hlen & Hall & Hrun)
        end.
        exists (i :: d), o, (r :: rs'). split; [reflexivity|].
        split; [cbn [length]; congruence|].
        split; [constructor; assumption|].
        cbn zeta in Hrun |- *. cbn [deletions].
        destruct (delete_base_experiments _ _ _ _) as [u w'|e w'|w'];
          cbn [trace] in Hrun.
        -- destruct Hrun as [-> ->]. split; [reflexivity|].
           rewrite <- !app_assoc. reflexivity.
        -- destruct Hrun as (j & o' & r' & -> & Hr' & -> & ->).
           exists j, o', r'. repeat (split; [first [reflexivity|assumption]|]).
           rewrite <- !app_assoc. reflexivity.
        -- destruct Hrun as (j & o' & -> & ->).
           exists j, o'. split; [reflexivity|].
           rewrite <- !app_assoc. reflexivity.
      * apply Z.eqb_neq in Hr. exists [], (i :: ids), [].
        cbn [deletions trace app].
        repeat (split; [first [reflexivity|constructor]|]).
        exists i, ids, r. repeat (split; [first [reflexivity|assumption]|]).
        reflexivity.
Qed.

(** X15: when the clean-up of the custom bundle notebook ends normally,
    the experiment, then every base experiment in the order of the list,
    then the dataset have been deleted, each deletion answered 200; before
    them the job was seen Done, or was cancelled with answer 200. *)
Theorem custom_cleanup_returns (base_url : string) (hd : gmap string string)
    (experiment_id job_id : string) (ids : list string) (dataset_id : string)
    (w w' : world) :
  cleanup base_url hd experiment_id job_id ids dataset_id w = Returned tt w' ->
  let job_url := job_endpoint base_url experiment_id job_id in
  exists checked cancel r1 rs r2,
    trace w' =
    trace w ++ Call (get_request job_url hd) (Some checked) :: cancel
      ++ [Call (delete_request (base_url +:+ "/experiments/" +:+ experiment_id)
                  hd) (Some r1);
          Print (repr_response r1 +:+ nl)]
      ++ deletions base_url hd ids rs
      ++ [Call (delete_request (base_url +:+ "/datasets/" +:+ dataset_id) hd)
               (Some r2);
          Print (repr_response r2 +:+ nl)] /\
    status_code r1 = 200 /\
    length rs = length ids /\ Forall (fun r => status_code r = 200) rs /\
    status_code r2 = 200 /\
    ((json checked !! "status" = Some "Done" /\ cancel = []) \/
     (exists status r,
         json checked !! "status" = Some status /\ status <> "Done" /\
         status_code r = 200 /\
         cancel = [Call (post_request (job_url +:+ ":cancel") hd) (Some r);
                   Print (repr_response r +:+ nl)])).
Proof.
  intros H job_url. subst job_url. destruct w as [rs0 cl tr]. revert H.
  unfold cleanup, delete_dataset, delete_experiment.
  cells. repeat (split_match; cells); intros H; try discriminate;
    injection H as <-; booleans; cbn [trace];
    match goal with
    | H : delete_base_experiments _ _ _ _ = Returned ?a _ |- _ =>
        destruct a;
        destruct (delete_base_experiments_returned _ _ _ _ _ H)
          as (rs & Hlen & Hall & ->)
    end; cbn [trace]; rewrite <- !app_assoc.
  - eexists _, [_; _], _, rs, _. split; [simpl; reflexivity|].
    repeat (split; [assumption|]). right. eexists _, _.
    split; [eassumption|]. split; [assumption|].
    split; [|reflexivity]. assumption.
  - eexists _, [], _, rs, _. split; [simpl; reflexivity|].
    repeat (split; [assumption|]). left. split; [assumption|reflexivity].
Qed.

Lemma custom_cleanup_returns_witness :
  let w := {| replies := [status_response "Running"; ok_response;
                          ok_response; ok_response; ok_response;
                          ok_response];
              clock := []; trace := [] |} in
  exists w',
    cleanup "u" ∅ "e" "j" ["b1"; "b2"] "d" w = Returned tt w' /\
    exists checked cancel r1 rs r2,
      trace w' =
      trace w ++ Call (get_request (job_endpoint "u" "e" "j") ∅) (Some checked)
        :: cancel
        ++ [Call (delete_request ("u" +:+ "/experiments/" +:+ "e") ∅)
                 (Some r1);
            Print (repr_response r1 +:+ nl)]
        ++ deletions "u" ∅ ["b1"; "b2"] rs
        ++ [Call (delete_request ("u" +:+ "/datasets/" +:+ "d") ∅) (Some r2);
            Print (repr_response r2 +:+ nl)] /\
      status_code r1 = 200 /\
      length rs = length ["b1"; "b2"] /\
      Forall (fun r => status_code r = 200) rs /\
      status_code r2 = 200 /\
      ((json checked !! "status" = Some "Done" /\ cancel = []) \/
       (exists status r,
           json checked !! "status" = Some status /\ status <> "Done" /\
           status_code r = 200 /\
           cancel = [Call (post_request (job_endpoint "u" "e" "j" +:+ ":cancel")
                             ∅) (Some r);
                     Print (repr_response r +:+ nl)])).
Proof.
  intros w. eexists. split; [vm_compute; reflexivity|].
  apply (custom_cleanup_returns "u" ∅ "e" "j" ["b1"; "b2"] "d" w).
  vm_compute. reflexivity.
Defined.

End CustomBundleFacts.

Module Auto3DSegCleanupFacts.
Import Auto3DSegCleanup.

(** X17: when the clean-up of the Auto3DSeg notebook ends normally, the
    inference job was answered with status Done, and the AutoML
    experiment, the inference experiment, the train dataset and the
    inference dataset have been deleted, in this order, each deletion
    answered 200; the AutoML job was seen Done, or was cancelled with
    answer 200. *)
Theorem auto3dseg_cleanup_returns (base_url : string)
    (hd : gmap string string)
    (automl_experiment_id automl_job_id experiment_id infer_job_id
       train_dataset_id infer_dataset_id : string)
    (w w' : world) :
  cleanup base_url hd automl_experiment_id automl_job_id experiment_id
          infer_job_id train_dataset_id infer_dataset_id w = Returned tt w' ->
  let automl_job :=
    base_url +:+ "/experiments/" +:+ automl_experiment_id
             +:+ "/jobs/" +:+ automl_job_id in
  let infer_job :=
    base_url +:+ "/experiments/" +:+ experiment_id
             +:+ "/jobs/" +:+ infer_job_id in
  let deleted (endpoint : string) (r : response) :=
    [Call (delete_request endpoint hd) (Some r);
     Print (repr_response r +:+ nl)] in
  exists c1 cancel c2 r1 r2 r3 r4,
    trace w' =
    trace w ++ Call (get_request automl_job hd) (Some c1) :: cancel
      ++ Call (get_request infer_job hd) (Some c2)
      :: deleted (base_url +:+ "/experiments/" +:+ automl_experiment_id) r1
      ++ deleted (base_url +:+ "/experiments/" +:+ experiment_id) r2
      ++ deleted (base_url +:+ "/datasets/" +:+ train_dataset_id) r3
      ++ deleted (base_url +:+ "/datasets/" +:+ infer_dataset_id) r4 /\
    json c2 !! "status" = Some "Done" /\
    status_code r1 = 200 /\ status_code r2 = 200 /\
    status_code r3 = 200 /\ status_code r4 = 200 /\
    ((json c1 !! "status" = Some "Done" /\ cancel = []) \/
     (exists status r,
         json c1 !! "status" = Some status /\ status <> "Done" /\
         status_code r = 200 /\
         cancel = [Call (post_request (automl_job +:+ ":cancel") hd) (Some r);
                   Print (repr_response r +:+ nl)])).
Proof.
  intros H automl_job infer_job deleted.
  subst automl_job infer_job deleted. destruct w as [rs cl tr]. revert H.
  unfold cleanup, cancel_automl_job, cancel_inference_job, delete_all.
  cells. repeat (split_match; cells); intros H; try discriminate;
    injection H as <-; booleans; cbn [trace]; rewrite <- !app_assoc.
  - eexists _, [_; _], _, _, _, _, _. split; [simpl; reflexivity|].
    repeat (split; [assumption|]). right. eexists _, _.
    split; [eassumption|]. split; [assumption|].
    split; [|reflexivity]. assumption.
  - eexists _, [], _, _, _, _, _. split; [simpl; reflexivity|].
    repeat (split; [assumption|]). left. split; [assumption|reflexivity].
Qed.

Lemma auto3dseg_cleanup_returns_witness :
  let w := {| replies := [status_response "Pending"; ok_response;
                          status_response "Done"; ok_response; ok_response;
                          ok_response; ok_response];
              clock := []; trace := [] |} in
  let automl_job := "u" +:+ "/experiments/" +:+ "a" +:+ "/jobs/" +:+ "aj" in
  let infer_job := "u" +:+ "/experiments/" +:+ "e" +:+ "/jobs/" +:+ "ij" in
  let deleted (endpoint : string) (r : response) :=
    [Call (delete_request endpoint ∅) (Some r);
     Print (repr_response r +:+ nl)] in
  exists w',
    cleanup "u" ∅ "a" "aj" "e" "ij" "t" "i" w = Returned tt w' /\
    exists c1 cancel c2 r1 r2 r3 r4,
      trace w' =
      trace w ++ Call (get_request automl_job ∅) (Some c1) :: cancel
        ++ Call (get_request infer_job ∅) (Some c2)
        :: deleted ("u" +:+ "/experiments/" +:+ "a") r1
        ++ deleted ("u" +:+ "/experiments/" +:+ "e") r2
        ++ deleted ("u" +:+ "/datasets/" +:+ "t") r3
        ++ deleted ("u" +:+ "/datasets/" +:+ "i") r4 /\
      json c2 !! "status" = Some "Done" /\
      status_code r1 = 200 /\ status_code r2 = 200 /\
      status_code r3 = 200 /\ status_code r4 = 200 /\
      ((json c1 !! "status" = Some "Done" /\ cancel = []) \/
       (exists status r,
           json c1 !! "status" = Some status /\ status <> "Done" /\
           status_code r = 200 /\
           cancel = [Call (post_request (automl_job +:+ ":cancel") ∅) (Some r);
                     Print (repr_response r +:+ nl)])).
Proof.
  intros w automl_job infer_job deleted.
  eexists. split; [vm_compute; reflexivity|].
  apply (auto3dseg_cleanup_returns "u" ∅ "a" "aj" "e" "ij" "t" "i" w).
  vm_compute. reflexivity.
Defined.

End Auto3DSegCleanupFacts.

(** ** The download of the inference results *)

Module Auto3DSegResultsFacts.
Import Auto3DSegResults.

Lemma error_code (c : Z) :
  (400 <=? c)%Z && (c <? 600)%Z = true <-> 400 <= c < 600.
Proof.
  rewrite andb_true_iff, Z.leb_le, Z.ltb_lt. reflexivity.
Qed.

Lemma no_error_code (c : Z) :
  (400 <=? c)%Z && (c <? 600)%Z = false <-> ~ 400 <= c < 600.
Proof.
  rewrite <- error_code. symmetry. apply not_true_iff_false.
Qed.

(** X18: the download of the inference results is gated by
    [raise_for_status], not by a comparison with 200.  After a status
    check that shows Done, an answer with a code from 400 to 599 raises
    HTTPError before anything is printed or written; an answer with any
    other code, 200 or not, has its body written to [infer_job_id.tar.gz]
    and the cell ends normally. *)
Theorem results_download (base_url : string) (hd : gmap string string)
    (experiment_id infer_job_id : string) (checked r : response)
    (rest : list response) (cl : list Z) (tr : list event) :
  json checked !! "status" = Some "Done" ->
  let job := base_url +:+ "/experiments/" +:+ experiment_id
                      +:+ "/jobs/" +:+ infer_job_id in
  let w := {| replies := checked :: r :: rest; clock := cl; trace := tr |} in
  let asked := [Call (get_request job hd) (Some checked);
                Call (get_request (job +:+ ":download") hd) (Some r)] in
  let output_file := infer_job_id +:+ ".tar.gz" in
  (400 <= status_code r < 600 ->
   download_results base_url hd experiment_id infer_job_id w =
   Failed (HTTPError (status_code r))
     {| replies := rest; clock := cl; trace := tr ++ asked |}) /\
  (~ 400 <= status_code r < 600 ->
   download_results base_url hd experiment_id infer_job_id w =
   Returned tt
     {| replies := rest; clock := cl;
        trace := tr ++ asked
                 ++ [Print ("Downloading job results..." +:+ nl);
                     Save output_file (content r);
                     Print (("Inference results are downloaded at "
                               +:+ output_file) +:+ nl)] |}).
Proof.
  intros Hst job w asked output_file. subst job w asked output_file.
  split; intros Hc; unfold download_results; cells; rewrite Hst; cells.
  - apply error_code in Hc. rewrite Hc. cells.
    rewrite <- app_assoc. reflexivity.
  - apply no_error_code in Hc. rewrite Hc. cells.
    rewrite files_snoc, files_snoc, lookup_insert_eq.
    rewrite bool_decide_eq_true_2 by (eexists; reflexivity).
    rewrite <- !app_assoc. reflexivity.
Qed.

Lemma results_download_witness :
  let redirect := {| status_code := 302; json := ∅; content := "moved" |} in
  let w := {| replies := [status_response "Done"; redirect];
              clock := []; trace := [] |} in
  download_results "u" ∅ "e" "ij" w =
  Returned tt
    {| replies := []; clock := [];
       trace := [] ++ [Call (get_request ("u" +:+ "/experiments/" +:+ "e"
                                              +:+ "/jobs/" +:+ "ij") ∅)
                            (Some (status_response "Done"));
                       Call (get_request (("u" +:+ "/experiments/" +:+ "e"
                                               +:+ "/jobs/" +:+ "ij")
                                            +:+ ":download") ∅)
                            (Some redirect)]
                ++ [Print ("Downloading job results..." +:+ nl);
                    Save ("ij" +:+ ".tar.gz") "moved";
                    Print (("Inference results are downloaded at "
                              +:+ ("ij" +:+ ".tar.gz")) +:+ nl)] |}.
Proof.
  intros redirect w.
  apply (results_download "u" ∅ "e" "ij" (status_response "Done") redirect
           [] [] []).
  - vm_compute. reflexivity.
  - simpl. lia.
Defined.

End Auto3DSegResultsFacts.

(** ** The login cells of the five notebooks *)

(** X20: the login cells of the notebooks differ in what they print and in
    the order of their statements only.  On every world the quiet cell and
    the cell of the credentials notebook send the same request as the cell
    of the segmentation notebook, end the same way, with the same
    exception or the same session (user id, token, base URL, headers), and
    leave the same responses unread. *)
Theorem login_cells_agree (host_url ngc_api_key : string) (w : world) :
  quietly (QuietLogin.login host_url ngc_api_key w) =
    quietly (login host_url ngc_api_key w) /\
  quietly (Credentials.login host_url ngc_api_key w) =
    quietly (login host_url ngc_api_key w).
Proof.
  destruct w as [rs cl tr].
  unfold QuietLogin.login, Credentials.login, login, has_key.
  cbn zeta. rewrite !append_assoc. run.
  destruct rs as [|r rs]; run; [split; reflexivity|].
  destruct (status_code r =? 201)%Z; run;
    [destruct (json r !! "user_id"); run;
     [destruct (json r !! "token"); run|]|].
  all: unfold quietly; cbn [replies clock trace];
    rewrite !List.filter_app; cbn [List.filter unprinted];
    rewrite ?app_nil_r, ?append_assoc; split; reflexivity.
Qed.
